(** * Trait-code extractors of [altair_parser/trait_extractors.py]

    A shallow embedding of the extractor classes ([SimpleTraitCode],
    [CompoundTraitCode], [RefTraitCode], ...) together with the properties
    the specification states about them.

    Python values are a small inductive type, keyword-argument
    dictionaries are insertion-ordered association lists, exceptions are
    an error type, and schema-node objects live in a store indexed by
    object identity, threaded through a state-and-error monad. *)

From Stdlib Require Import ZArith String List Bool Ascii.
From stdpp Require Import base strings pretty gmap.
Import ListNotations.
Open Scope string_scope.

(** ** Python values *)

(** JSON values as [json.load] produces them, plus the [Variable] wrapper
    of [utils.py], whose only purpose is to be rendered by name. A float
    is kept as the decimal literal [m * 10^e]; the extractors only forward
    numbers, they never compute with them. *)
#[warnings="-register-all"]
Inductive pyval : Type :=
| PNone
| PBool (b : bool)
| PInt (z : Z)
| PFloat (m e : Z)
| PStr (s : string)
| PList (l : list pyval)
| PDict (d : list (string * pyval))
| PVariable (name : pyval).

(** The induction principle of the nested type. *)
Section PyvalInduction.

Variable P : pyval -> Prop.
Hypothesis HNone : P PNone.
Hypothesis HBool : forall b, P (PBool b).
Hypothesis HInt : forall z, P (PInt z).
Hypothesis HFloat : forall m e, P (PFloat m e).
Hypothesis HStr : forall s, P (PStr s).
Hypothesis HList : forall l, List.Forall P l -> P (PList l).
Hypothesis HDict :
  forall d, List.Forall (fun kv => P (snd kv)) d -> P (PDict d).
Hypothesis HVariable : forall x, P x -> P (PVariable x).

(** Induction on a value, with the hypothesis available for every item
    of a list and every value of a dict. *)
Fixpoint pyval_nested_ind (v : pyval) : P v :=
  match v with
  | PNone => HNone
  | PBool b => HBool b
  | PInt z => HInt z
  | PFloat m e => HFloat m e
  | PStr s => HStr s
  | PList l =>
      HList l
        ((fix items (l : list pyval) : List.Forall P l :=
            match l with
            | [] => @List.Forall_nil _ P
            | x :: l' =>
                @List.Forall_cons _ P x l' (pyval_nested_ind x) (items l')
            end) l)
  | PDict d =>
      HDict d
        ((fix values (d : list (string * pyval))
            : List.Forall (fun kv => P (snd kv)) d :=
            match d with
            | [] => @List.Forall_nil _ _
            | kv :: d' =>
                @List.Forall_cons _ (fun kv => P (snd kv)) kv d'
                  (pyval_nested_ind (snd kv)) (values d')
            end) d)
  | PVariable x => HVariable x (pyval_nested_ind x)
  end.

End PyvalInduction.

(** An insertion-ordered Python [dict] with string keys. *)
Definition dict : Type := list (string * pyval).

(** [key in d] *)
Fixpoint dict_contains (d : dict) (key : string) : bool :=
  match d with
  | [] => false
  | (k, _) :: d' => if String.eqb k key then true else dict_contains d' key
  end.

(** [d.get(key)] *)
Fixpoint dict_get (d : dict) (key : string) : option pyval :=
  match d with
  | [] => None
  | (k, v) :: d' => if String.eqb k key then Some v else dict_get d' key
  end.

(** [d[key] = v]: an existing key keeps its position, a new one goes last. *)
Fixpoint dict_set (d : dict) (key : string) (v : pyval) : dict :=
  match d with
  | [] => [(key, v)]
  | (k, w) :: d' =>
      if String.eqb k key then (k, v) :: d' else (k, w) :: dict_set d' key v
  end.

(** [d.update(new)] *)
Definition dict_update (d new : dict) : dict :=
  fold_left (fun acc kv => dict_set acc (fst kv) (snd kv)) new d.

(** [x == s] for a string literal [s]: only a [str] equals a [str]. *)
Definition py_eq_str (x : pyval) (s : string) : bool :=
  match x with
  | PStr t => String.eqb t s
  | _ => false
  end.

(** [x in strs] for a list of string literals. *)
Definition py_in_strs (x : pyval) (strs : list string) : bool :=
  existsb (py_eq_str x) strs.

(** Truth value of an object, as [or] tests it. A [Variable] defines
    neither [__bool__] nor [__len__], so it is true. *)
Definition py_truthy (x : pyval) : bool :=
  match x with
  | PNone => false
  | PBool b => b
  | PInt z => negb (Z.eqb z 0)
  | PFloat m _ => negb (Z.eqb m 0)
  | PStr s => negb (String.eqb s "")
  | PList l => match l with [] => false | _ => true end
  | PDict d => match d with [] => false | _ => true end
  | PVariable _ => true
  end.

(** [isinstance(x, list)] *)
Definition py_is_list (x : pyval) : bool :=
  match x with
  | PList _ => true
  | _ => false
  end.

(** ** Exceptions *)

Inductive exn : Type :=
| KeyError (key : pyval)
| TypeError (msg : string)
| NotImplementedError (msg : string)
| RecursionError
| OtherError (kind msg : string).

Inductive result (A : Type) : Type :=
| Ok (a : A)
| Raise (e : exn).
Arguments Ok {A} a.
Arguments Raise {A} e.

(** Characters of a string, as iterating over a [str] yields them. *)
Fixpoint str_chars (s : string) : list pyval :=
  match s with
  | EmptyString => []
  | String c s' => PStr (String c EmptyString) :: str_chars s'
  end.

(** [for x in v]: lists yield their items, strings their characters,
    dicts their keys; anything else is not iterable. *)
Definition py_iter (v : pyval) : result (list pyval) :=
  match v with
  | PList l => Ok l
  | PStr s => Ok (str_chars s)
  | PDict d => Ok (map (fun kv => PStr (fst kv)) d)
  | _ => Raise (TypeError "object is not iterable")
  end.

(** [s.startswith(p)] and substring search, for [p in s] on strings. *)
Fixpoint str_prefix (p s : string) : bool :=
  match p, s with
  | EmptyString, _ => true
  | String a p', String b s' => if Ascii.eqb a b then str_prefix p' s' else false
  | String _ _, EmptyString => false
  end.

Fixpoint str_contains (p s : string) : bool :=
  if str_prefix p s then true
  else match s with
       | EmptyString => false
       | String _ s' => str_contains p s'
       end.

(** [p in v] for a string literal [p]. *)
Definition py_contains_str (p : string) (v : pyval) : result bool :=
  match v with
  | PList l => Ok (existsb (fun x => py_eq_str x p) l)
  | PStr s => Ok (str_contains p s)
  | PDict d => Ok (dict_contains d p)
  | _ => Raise (TypeError "argument is not iterable")
  end.

(** [table[key]] on a class-level table with string keys: lists and dicts
    are unhashable, every other foreign key is simply missing. *)
Definition table_getitem {A : Type} (table : list (string * A)) (key : pyval)
  : result A :=
  match key with
  | PList _ | PDict _ => Raise (TypeError "unhashable type")
  | PStr s =>
      match find (fun kv => String.eqb (fst kv) s) table with
      | Some kv => Ok (snd kv)
      | None => Raise (KeyError key)
      end
  | _ => Raise (KeyError key)
  end.

(** [table.get(key, default)] *)
Definition table_get {A : Type} (table : list (string * A)) (key : pyval)
  (default : A) : result A :=
  match key with
  | PList _ | PDict _ => Raise (TypeError "unhashable type")
  | PStr s =>
      match find (fun kv => String.eqb (fst kv) s) table with
      | Some kv => Ok (snd kv)
      | None => Ok default
      end
  | _ => Ok default
  end.

(** [sep.join(parts)] *)
Fixpoint str_join (sep : string) (parts : list string) : string :=
  match parts with
  | [] => ""
  | [p] => p
  | p :: rest => p +:+ sep +:+ str_join sep rest
  end.

(** ** Schema nodes and the object store *)

(** Modelled from the spec: the schema node of the absent [JSONSchema]
    class, with the attributes the data model lists (underlying subtree,
    document root, path from the root) and the [metadata] attribute that
    [RefTraitCode] assigns. *)
Record JSONSchema : Type := mkJSONSchema {
  subtree : dict;
  root : dict;
  path : list string;
  metadata : pyval
}.

(** Node objects are mutable Python objects, so they live in a store and
    are passed around by identity. *)
Definition loc : Type := nat.
Abbreviation store := (gmap loc JSONSchema).

(** Computations read and write the store and may raise; what was written
    before an exception stays written. *)
Definition M (A : Type) : Type := store -> result A * store.

Definition ret {A : Type} (a : A) : M A := fun h => (Ok a, h).

Definition raise {A : Type} (e : exn) : M A := fun h => (Raise e, h).

Definition bind {A B : Type} (m : M A) (k : A -> M B) : M B :=
  fun h =>
    match m h with
    | (Ok a, h') => k a h'
    | (Raise e, h') => (Raise e, h')
    end.

Declare Scope py_scope.
Delimit Scope py_scope with py.
Notation "x <- m ;; k" := (bind m (fun x => k))
  (at level 100, m at next level, right associativity) : py_scope.
Open Scope py_scope.

(** A pure operation that may raise. *)
Definition lift {A : Type} (r : result A) : M A := fun h => (r, h).

(** Dereference a node object. Python has no dangling references; the
    error case only keeps the function total. *)
Definition get_node (l : loc) : M JSONSchema :=
  fun h =>
    match h !! l with
    | Some n => (Ok n, h)
    | None => (Raise (OtherError "ReferenceError" "no such object"), h)
    end.

(** [node.metadata = md] *)
Definition set_metadata (l : loc) (md : pyval) : M unit :=
  fun h =>
    match h !! l with
    | Some n =>
        (Ok tt, <[l := mkJSONSchema (subtree n) (root n) (path n) md]> h)
    | None => (Raise (OtherError "ReferenceError" "no such object"), h)
    end.

(** Modelled from the spec: the accessors [key in node] and [node[key]]
    of the absent [JSONSchema] class, which read the underlying
    subtree. *)
Definition node_contains (l : loc) (key : string) : M bool :=
  n <- get_node l ;;
  ret (dict_contains (subtree n) key).

Definition node_getitem (l : loc) (key : string) : M pyval :=
  n <- get_node l ;;
  match dict_get (subtree n) key with
  | Some v => ret v
  | None => raise (KeyError (PStr key))
  end.

(** [[f(x) for x in xs]] where [f] has effects. *)
Fixpoint mapM {A B : Type} (f : A -> M B) (xs : list A) : M (list B) :=
  match xs with
  | [] => ret []
  | x :: xs' =>
      y <- f x ;;
      ys <- mapM f xs' ;;
      ret (y :: ys)
  end.

(** ** The extractors *)

(** An extractor object: [self.schema] and [self.typecode]. *)
Record TraitCodeExtractor : Type := mkExtractor {
  schema : loc;
  typecode : pyval
}.

Definition simple_types : list string :=
  ["boolean"; "null"; "number"; "integer"; "string"].

Definition classes : list (string * string) :=
  [("boolean", "jst.JSONBoolean");
   ("null", "jst.JSONNull");
   ("number", "jst.JSONNumber");
   ("integer", "jst.JSONInteger");
   ("string", "jst.JSONString")].

Definition validation_keys : list (string * list string) :=
  [("number", ["minimum"; "exclusiveMinimum";
               "maximum"; "exclusiveMaximum"; "multipleOf"]);
   ("integer", ["minimum"; "exclusiveMinimum";
                "maximum"; "exclusiveMaximum"; "multipleOf"])].

(** What the extractors import and call but this file cannot see:
    [utils.construct_function_call], the derived properties [type],
    [is_object] and [classname] of a node, its methods [get_reference],
    [make_child] and [copy], and its [trait_code] property, which runs
    the extractor chain on the node. The extractors are written against
    this interface. *)
Class SchemaAPI : Type := {
  construct_function_call : string -> list pyval -> dict -> string;
  node_type : JSONSchema -> pyval;
  is_object : JSONSchema -> bool;
  classname : JSONSchema -> string;
  get_reference : loc -> pyval -> M loc;
  make_child : loc -> pyval -> M loc;
  copy : loc -> M loc;
  trait_code : loc -> M string
}.

(** One module per class of [trait_extractors.py], with its [check] and
    its [trait_code]. A [kwargs] parameter is a new dict on every call,
    and the only item assignments in the extractors are on their own
    [kwargs]; so keyword-argument dicts are values here, updated
    functionally. The one write to an object that outlives the call is
    the attribute assignment [ref.metadata = ...]. *)

Module TraitCodeExtractor.

(** [__init__]: [self.typecode = typecode or schema.type]. *)
Definition init {api : SchemaAPI} (schema : loc) (typecode : pyval)
  : M TraitCodeExtractor :=
  if py_truthy typecode then ret (mkExtractor schema typecode)
  else
    n <- get_node schema ;;
    ret (mkExtractor schema (node_type n)).

(** Base class: both methods are abstract. *)
Definition check (self : TraitCodeExtractor) : M bool :=
  raise (NotImplementedError "").

Definition trait_code (self : TraitCodeExtractor) (kwargs : dict)
  : M string :=
  raise (NotImplementedError "").

End TraitCodeExtractor.

(** [{key: self.schema[key] for key in keys if key in self.schema}],
    built left to right into [acc]. *)
Fixpoint present_items (schema : loc) (keys : list string) (acc : dict)
  : M dict :=
  match keys with
  | [] => ret acc
  | key :: keys' =>
      b <- node_contains schema key ;;
      if b then
        v <- node_getitem schema key ;;
        present_items schema keys' (dict_set acc key v)
      else present_items schema keys' acc
  end.

Module SimpleTraitCode.

Definition check (self : TraitCodeExtractor) : M bool :=
  ret (py_in_strs (typecode self) simple_types).

Definition trait_code {api : SchemaAPI} (self : TraitCodeExtractor)
  (kwargs : dict) : M string :=
  cls <- lift (table_getitem classes (typecode self)) ;;
  keys <- lift (table_get validation_keys (typecode self) []) ;;
  new <- present_items (schema self) keys [] ;;
  ret (construct_function_call cls [] (dict_update kwargs new)).

End SimpleTraitCode.

(** [{key: val for key, val in kwargs.items()
      if key not in ['allow_none', 'allow_undefined']}] *)
Definition item_kwargs_of (kwargs : dict) : dict :=
  List.filter (fun kv => negb (existsb (String.eqb (fst kv))
                                 ["allow_none"; "allow_undefined"])) kwargs.

Module CompoundTraitCode.

(** [all(typ in self.simple_types for typ in self.typecode) and
    isinstance(self.typecode, list)]: the iteration comes first, so a
    type code that cannot be iterated raises. *)
Definition check (self : TraitCodeExtractor) : M bool :=
  typs <- lift (py_iter (typecode self)) ;;
  ret (forallb (fun typ => py_in_strs typ simple_types) typs
       && py_is_list (typecode self)).

Definition trait_code {api : SchemaAPI} (self : TraitCodeExtractor)
  (kwargs : dict) : M string :=
  has_null <- lift (py_contains_str "null" (typecode self)) ;;
  let kwargs := if has_null then dict_set kwargs "allow_none" (PBool true)
                else kwargs in
  typs <- lift (py_iter (typecode self)) ;;
  let typecode := List.filter (fun typ => negb (py_eq_str typ "null")) typs in
  match typecode with
  | [typ] =>
      simple <- TraitCodeExtractor.init (schema self) typ ;;
      SimpleTraitCode.trait_code simple kwargs
  | _ =>
      let item_kwargs := item_kwargs_of kwargs in
      codes <- mapM (fun typ =>
                       simple <- TraitCodeExtractor.init (schema self) typ ;;
                       SimpleTraitCode.trait_code simple item_kwargs)
                    typecode ;;
      let arg := "[" +:+ str_join ", " codes +:+ "]" in
      ret (construct_function_call "jst.JSONUnion" [PVariable (PStr arg)]
             kwargs)
  end.

End CompoundTraitCode.

Module RefTraitCode.

Definition check (self : TraitCodeExtractor) : M bool :=
  node_contains (schema self) "$ref".

Definition trait_code {api : SchemaAPI} (self : TraitCodeExtractor)
  (kwargs : dict) : M string :=
  target <- node_getitem (schema self) "$ref" ;;
  ref <- get_reference (schema self) target ;;
  r <- get_node ref ;;
  if is_object r then
    ret (construct_function_call "jst.JSONInstance"
           [PVariable (PStr (classname r))] kwargs)
  else
    ref <- copy ref ;;
    s <- get_node (schema self) ;;
    _ <- set_metadata ref (metadata s) ;;
    trait_code ref.

End RefTraitCode.

Module EnumTraitCode.

Definition check (self : TraitCodeExtractor) : M bool :=
  node_contains (schema self) "enum".

Definition trait_code {api : SchemaAPI} (self : TraitCodeExtractor)
  (kwargs : dict) : M string :=
  enum <- node_getitem (schema self) "enum" ;;
  ret (construct_function_call "jst.JSONEnum" [enum] kwargs).

End EnumTraitCode.

(** [if key in self.schema: kwargs[name] = self.schema[key]] *)
Definition forward_key (schema : loc) (key name : string) (kwargs : dict)
  : M dict :=
  b <- node_contains schema key ;;
  if b then
    v <- node_getitem schema key ;;
    ret (dict_set kwargs name v)
  else ret kwargs.

Module ArrayTraitCode.

Definition check {api : SchemaAPI} (self : TraitCodeExtractor) : M bool :=
  n <- get_node (schema self) ;;
  ret (py_eq_str (node_type n) "array").

Definition trait_code {api : SchemaAPI} (self : TraitCodeExtractor)
  (kwargs : dict) : M string :=
  items <- node_getitem (schema self) "items" ;;
  kwargs <- forward_key (schema self) "minItems" "minlen" kwargs ;;
  kwargs <- forward_key (schema self) "maxItems" "maxlen" kwargs ;;
  kwargs <- forward_key (schema self) "uniqueItems" "uniqueItems" kwargs ;;
  if py_is_list items then
    raise (NotImplementedError "'items' keyword as list")
  else
    child <- make_child (schema self) items ;;
    itemtype <- trait_code child ;;
    ret (construct_function_call "jst.JSONArray"
           [PVariable (PStr itemtype)] kwargs).

End ArrayTraitCode.

(** [[Variable(self.schema.make_child(sub_schema).trait_code)
      for sub_schema in self.schema[key]]] *)
Definition children_of {api : SchemaAPI} (schema : loc) (key : string)
  : M (list pyval) :=
  subs <- node_getitem schema key ;;
  subs <- lift (py_iter subs) ;;
  mapM (fun sub_schema =>
          child <- make_child schema sub_schema ;;
          code <- trait_code child ;;
          ret (PVariable (PStr code)))
       subs.

Module AnyOfTraitCode.

Definition check (self : TraitCodeExtractor) : M bool :=
  node_contains (schema self) "anyOf".

Definition trait_code {api : SchemaAPI} (self : TraitCodeExtractor)
  (kwargs : dict) : M string :=
  children <- children_of (schema self) "anyOf" ;;
  ret (construct_function_call "jst.JSONAnyOf"
         [PVariable (PList children)] kwargs).

End AnyOfTraitCode.

Module OneOfTraitCode.

Definition check (self : TraitCodeExtractor) : M bool :=
  node_contains (schema self) "oneOf".

Definition trait_code {api : SchemaAPI} (self : TraitCodeExtractor)
  (kwargs : dict) : M string :=
  children <- children_of (schema self) "oneOf" ;;
  ret (construct_function_call "jst.JSONOneOf"
         [PVariable (PList children)] kwargs).

End OneOfTraitCode.

Module AllOfTraitCode.

Definition check (self : TraitCodeExtractor) : M bool :=
  node_contains (schema self) "allOf".

Definition trait_code {api : SchemaAPI} (self : TraitCodeExtractor)
  (kwargs : dict) : M string :=
  children <- children_of (schema self) "allOf" ;;
  ret (construct_function_call "jst.JSONAllOf"
         [PVariable (PList children)] kwargs).

End AllOfTraitCode.

Module NotTraitCode.

Definition check (self : TraitCodeExtractor) : M bool :=
  node_contains (schema self) "not".

Definition trait_code {api : SchemaAPI} (self : TraitCodeExtractor)
  (kwargs : dict) : M string :=
  sub <- node_getitem (schema self) "not" ;;
  child <- make_child (schema self) sub ;;
  not_this <- trait_code child ;;
  ret (construct_function_call "jst.JSONNot"
         [PVariable (PStr not_this)] kwargs).

End NotTraitCode.

Module ObjectTraitCode.

Definition check (self : TraitCodeExtractor) : M bool :=
  ret (py_eq_str (typecode self) "object").

Definition trait_code (self : TraitCodeExtractor) (kwargs : dict)
  : M string :=
  raise (NotImplementedError "Anonymous Objects").

End ObjectTraitCode.

(** ** The extractor chain and a reference environment *)

(** The [JSONSchema] class and [utils.py] are not part of the sources at
    hand. The definitions below follow the specification's description of
    them; they make the extractors runnable on concrete schemas. Every
    property of the extractors proved later holds for any [SchemaAPI]. *)

(** An extractor class: its [check] and its [trait_code]. *)
Definition extractor_class : Type :=
  (TraitCodeExtractor -> M bool) * (TraitCodeExtractor -> dict -> M string).

(** Modelled from the spec: the fixed priority order of the extractor
    chain (reference, enum, simple scalar, compound, array, anyOf, oneOf,
    allOf, not, anonymous object); the list attribute of [JSONSchema]
    holding it is absent. *)
Definition trait_extractors {api : SchemaAPI} : list extractor_class :=
  [(RefTraitCode.check, RefTraitCode.trait_code);
   (EnumTraitCode.check, EnumTraitCode.trait_code);
   (SimpleTraitCode.check, SimpleTraitCode.trait_code);
   (CompoundTraitCode.check, CompoundTraitCode.trait_code);
   (ArrayTraitCode.check, ArrayTraitCode.trait_code);
   (AnyOfTraitCode.check, AnyOfTraitCode.trait_code);
   (OneOfTraitCode.check, OneOfTraitCode.trait_code);
   (AllOfTraitCode.check, AllOfTraitCode.trait_code);
   (NotTraitCode.check, NotTraitCode.trait_code);
   (ObjectTraitCode.check, ObjectTraitCode.trait_code)].

(** Modelled from the spec: the dispatch of the absent
    [JSONSchema.trait_code]: the first extractor whose [check] holds
    produces the trait code; no match is an error. *)
Fixpoint first_match {api : SchemaAPI} (extractors : list extractor_class)
  (node : loc) (kwargs : dict) : M string :=
  match extractors with
  | [] => raise (OtherError "NoMatchingExtractorError" "")
  | (check, code) :: rest =>
      self <- TraitCodeExtractor.init node PNone ;;
      b <- check self ;;
      if b then code self kwargs else first_match rest node kwargs
  end.

(** Modelled from the spec: the property options of a node, its
    description passed on as documentation. *)
Definition property_options (n : JSONSchema) : dict :=
  match metadata n with
  | PDict d =>
      match dict_get d "description" with
      | Some v => [("help", v)]
      | None => []
      end
  | _ => []
  end.

(** Rendering of values, for the reference [construct_function_call]. *)
Fixpoint py_repr (v : pyval) : string :=
  match v with
  | PNone => "None"
  | PBool b => if b then "True" else "False"
  | PInt z => pretty z
  | PFloat m e => pretty m +:+ "e" +:+ pretty e
  | PStr s => "'" +:+ s +:+ "'"
  | PList l => "[" +:+ str_join ", " (map py_repr l) +:+ "]"
  | PDict d =>
      "{" +:+ str_join ", "
                (map (fun kv => "'" +:+ fst kv +:+ "': " +:+ py_repr (snd kv)) d)
          +:+ "}"
  | PVariable (PStr s) => s
  | PVariable x => py_repr x
  end.

(** Modelled from the spec: the code-construction helper of the absent
    [utils.py], rendering a call with positional and keyword arguments
    into source text. *)
Definition render_call (name : string) (args : list pyval) (kwargs : dict)
  : string :=
  name +:+ "("
       +:+ str_join ", "
             (map py_repr args
              ++ map (fun kv => fst kv +:+ "=" +:+ py_repr (snd kv)) kwargs)
       +:+ ")".

(** Modelled from the spec: type inference of a node (section 4.1): an
    explicit [type] keyword verbatim, otherwise inferred from the
    structural keywords, otherwise undefined. *)
Definition infer_type (n : JSONSchema) : pyval :=
  match dict_get (subtree n) "type" with
  | Some t => t
  | None =>
      if dict_contains (subtree n) "enum" then PNone
      else if dict_contains (subtree n) "properties"
              || dict_contains (subtree n) "additionalProperties"
      then PStr "object"
      else if dict_contains (subtree n) "items" then PStr "array"
      else PNone
  end.

(** Modelled from the spec: [is_object], true for type "object" and for
    the entries of the definitions container, which become classes. *)
Definition infer_is_object (n : JSONSchema) : bool :=
  py_eq_str (infer_type n) "object"
  || match path n with
     | ["definitions"; _] => true
     | _ => false
     end.

(** Modelled from the spec: [classname], derived from the path. *)
Definition infer_classname (n : JSONSchema) : string :=
  List.last (path n) "Root".

(** Title and description of a subtree. *)
Definition metadata_of (d : dict) : pyval :=
  PDict (List.filter (fun kv => existsb (String.eqb (fst kv))
                             ["title"; "description"]) d).

(** A new object at an unused identity. *)
Definition alloc (n : JSONSchema) : M loc :=
  fun h => let l := fresh (dom h) in (Ok l, <[l := n]> h).

(** [s.split(sep)] *)
Fixpoint str_split (sep : ascii) (s : string) : list string :=
  match s with
  | EmptyString => [EmptyString]
  | String c s' =>
      if Ascii.eqb c sep then EmptyString :: str_split sep s'
      else match str_split sep s' with
           | [] => [String c EmptyString]
           | w :: ws => String c w :: ws
           end
  end.

(** Walk the path segments of a reference down from the document root. *)
Fixpoint walk (d : dict) (segments : list string) : result dict :=
  match segments with
  | [] => Ok d
  | key :: rest =>
      match dict_get d key with
      | Some (PDict d') => walk d' rest
      | _ => Raise (OtherError "UnresolvedReferenceError" key)
      end
  end.

(** Modelled from the spec: the reference resolver (section 4.1): a
    same-document fragment is walked from the root and yields a new node;
    anything else is unsupported. *)
Definition resolve (n : JSONSchema) (ref : pyval) : result JSONSchema :=
  match ref with
  | PStr s =>
      match str_split "/" s with
      | "#" :: segments =>
          match walk (root n) segments with
          | Ok d => Ok (mkJSONSchema d (root n) segments (metadata_of d))
          | Raise e => Raise e
          end
      | _ => Raise (OtherError "UnsupportedReferenceError" s)
      end
  | _ => Raise (TypeError "reference is not a string")
  end.

(** Modelled from the spec: [get_reference] resolves the reference
    against the document root of the node and returns a new node. *)
Definition spec_get_reference (l : loc) (ref : pyval) : M loc :=
  n <- get_node l ;;
  target <- lift (resolve n ref) ;;
  alloc target.

(** Modelled from the spec: [make_child] returns a new node scoped to the
    nested subtree, with the same document root and an extended path. *)
Definition spec_make_child (l : loc) (sub : pyval) : M loc :=
  n <- get_node l ;;
  match sub with
  | PDict d =>
      alloc (mkJSONSchema d (root n) (path n ++ ["*"]) (metadata_of d))
  | _ => raise (TypeError "schema is not a mapping")
  end.

(** Modelled from the spec: [copy] returns a new node with the attributes
    of the old one. *)
Definition spec_copy (l : loc) : M loc :=
  n <- get_node l ;;
  alloc n.

(** The reference environment around a given [trait_code]. *)
Definition spec_api (code : loc -> M string) : SchemaAPI :=
  {| construct_function_call := render_call;
     node_type := infer_type;
     is_object := infer_is_object;
     classname := infer_classname;
     get_reference := spec_get_reference;
     make_child := spec_make_child;
     copy := spec_copy;
     trait_code := code |}.

(** Modelled from the spec: one run of the extractor chain on a node, the
    body of the absent [JSONSchema.trait_code]. *)
Definition run_chain (api : SchemaAPI) (node : loc) : M string :=
  n <- get_node node ;;
  first_match trait_extractors node (property_options n).

(** Modelled from the spec: the absent [JSONSchema.trait_code]. The
    extractors call the chain again on child and referenced nodes;
    [fuel] bounds that recursion the way the interpreter's recursion
    limit does. *)
Fixpoint JSONSchema_trait_code (fuel : nat) (node : loc) : M string :=
  match fuel with
  | O => raise RecursionError
  | S fuel' => run_chain (spec_api (JSONSchema_trait_code fuel')) node
  end.

(** The environment in which [trait_code] is the chain itself. *)
Definition chain_api (fuel : nat) : SchemaAPI :=
  spec_api (JSONSchema_trait_code fuel).

(** A store holding one node, a document root with the given schema. *)
Definition root_store (d : dict) : store :=
  {[ 0 := mkJSONSchema d d [] (metadata_of d) ]}.

(** The dict comprehension of [SimpleTraitCode.trait_code] once the node
    has been read: the entries of [d] under [keys], in the order of
    [keys]. *)
Definition present_in (d : dict) (keys : list string) (acc : dict) : dict :=
  fold_left (fun acc key =>
               match dict_get d key with
               | Some v => dict_set acc key v
               | None => acc
               end) keys acc.

(** A dict has each key once. *)
Definition dict_wf (d : dict) : Prop := NoDup (map fst d).

(** The keyword arguments of the array call once the node has been read:
    the caller's, with [minlen], [maxlen] and [uniqueItems] set from the
    entries of [d]. *)
Definition array_kwargs (d : dict) (kwargs : dict) : dict :=
  let kwargs := match dict_get d "minItems" with
                | Some v => dict_set kwargs "minlen" v
                | None => kwargs
                end in
  let kwargs := match dict_get d "maxItems" with
                | Some v => dict_set kwargs "maxlen" v
                | None => kwargs
                end in
  match dict_get d "uniqueItems" with
  | Some v => dict_set kwargs "uniqueItems" v
  | None => kwargs
  end.

(** ** Stores before and after a computation *)

(** Every object of [h] is in [h'] with the same attributes. *)
Definition extends (h h' : store) : Prop :=
  forall l n, h !! l = Some n -> h' !! l = Some n.

(** [m] does not change any object that exists when it starts. *)
Definition preserves {A : Type} (m : M A) : Prop :=
  forall h r h', m h = (r, h') -> extends h h'.

(** [l] in [h] and [l'] in [h'] are nodes with the same attributes. *)
Definition same_node (h : store) (l : loc) (h' : store) (l' : loc) : Prop :=
  exists n, h !! l = Some n /\ h' !! l' = Some n.

(** Two runs end alike: both return, with related values, or both raise
    the same exception. *)
Definition same_outcome {A : Type} (R : store -> A -> store -> A -> Prop)
  (x y : result A * store) : Prop :=
  match x, y with
  | (Ok a, h), (Ok a', h') => R h a h' a'
  | (Raise e, _), (Raise e', _) => e = e'
  | _, _ => False
  end.

(** [m], run on a node, only reads that node: the store stays as it is
    and the result depends on nothing but the node's attributes. *)
Definition reads_node {A : Type} (m : loc -> M A) : Prop :=
  (forall l h, snd (m l h) = h)
  /\ (forall l h l' h', h !! l = h' !! l' -> fst (m l h) = fst (m l' h')).

(** What the extractors rely on from the node class: its methods create
    nodes and never change existing ones, [copy] returns a new object
    with the attributes of the original, and what the methods return
    depends only on the attributes of the node they are called on. *)
Record SchemaAPI_laws (api : SchemaAPI) : Prop := {
  get_reference_preserves : forall l v, preserves (get_reference l v);
  make_child_preserves : forall l v, preserves (make_child l v);
  copy_preserves : forall l, preserves (copy l);
  trait_code_preserves : forall l, preserves (trait_code l);
  copy_new : forall l h n,
    h !! l = Some n ->
    exists l' h', copy l h = (Ok l', h') /\ h !! l' = None
                  /\ h' !! l' = Some n;
  get_reference_same : forall v h l h' l',
    same_node h l h' l' ->
    same_outcome same_node (get_reference l v h) (get_reference l' v h');
  make_child_same : forall v h l h' l',
    same_node h l h' l' ->
    same_outcome same_node (make_child l v h) (make_child l' v h');
  trait_code_same : forall h l h' l',
    same_node h l h' l' -> fst (trait_code l h) = fst (trait_code l' h')
}.

(** [m], run on a node, changes no existing object, and its result
    depends only on the attributes of that node: run again, on the same
    node or on another one with the same attributes, it returns the same
    value or raises the same exception. *)
Definition node_function {A : Type} (m : loc -> M A) : Prop :=
  (forall l, preserves (m l))
  /\ (forall h l h' l',
        same_node h l h' l' -> fst (m l h) = fst (m l' h')).

(** [schema.make_child(v).trait_code], passed on through [g]: the step
    that [ArrayTraitCode], [NotTraitCode] and the composition extractors
    share. *)
Definition child_code {api : SchemaAPI} {A : Type} (g : string -> A)
  (v : pyval) (l : loc) : M A :=
  child <- make_child l v ;;
  code <- trait_code child ;;
  ret (g code).

(** ** Sample schemas *)

Definition integer_schema : dict :=
  [("type", PStr "integer"); ("minimum", PInt 0); ("multipleOf", PInt 5)].

Definition string_schema : dict :=
  [("type", PStr "string"); ("minLength", PInt 3); ("pattern", PStr "^a")].

Definition nullable_schema : dict :=
  [("type", PList [PStr "null"; PStr "integer"]); ("maximum", PInt 4)].

Definition union_schema : dict :=
  [("type", PList [PStr "string"; PStr "null"; PStr "number"]);
   ("maximum", PInt 4)].

Definition null_schema : dict := [("type", PList [PStr "null"])].

Definition object_schema : dict :=
  [("type", PStr "object");
   ("properties", PDict [("name", PDict [("type", PStr "string")])])].

Definition tuple_schema : dict :=
  [("type", PStr "array");
   ("items", PList [PDict [("type", PStr "string")];
                    PDict [("type", PStr "integer")]])].

Definition array_schema : dict :=
  [("type", PStr "array"); ("minItems", PInt 1); ("uniqueItems", PBool true);
   ("items", PDict [("type", PStr "string")])].

(** A reference to a definition that becomes a class. *)
Definition person_ref_schema : dict :=
  [("definitions",
    PDict [("Person",
            PDict [("properties",
                    PDict [("name", PDict [("type", PStr "string")]);
                           ("age", PDict [("type", PStr "integer")])])])]);
   ("$ref", PStr "#/definitions/Person")].

(** A reference used as an alias of a scalar schema. *)
Definition alias_schema : dict :=
  [("shared", PDict [("name", PDict [("type", PStr "string");
                                      ("description", PStr "shared")])]);
   ("description", PStr "local");
   ("$ref", PStr "#/shared/name")].

(** The environment the samples run in. *)
Definition sample_api : SchemaAPI := chain_api 3.

(** The root node of a one-node store. *)
Definition root_node (d : dict) : JSONSchema :=
  mkJSONSchema d d [] (metadata_of d).

(** ** Generated classes *)

(** The classes that the generated module defines, and their
    [from_dict] and [to_dict], belong to the [schemapi] package, of which
    only the tests are at hand. They are modelled from the
    specification. *)

(** Modelled from the spec: a property declaration of a generated class,
    as far as serialization is concerned. A plain validated property
    holds a JSON value that the runtime library accepts; an array holds a
    sequence; an instance-of-class property holds an instance of the
    named generated class. *)
Inductive decl : Type :=
| DPlain (accepts : pyval -> bool)
| DArray (item : decl)
| DInstance (cls : string).

(** Modelled from the spec: a generated class (section 3): its name, its
    ordered (property name, declaration, required flag) triples, and
    whether properties that are not declared are permitted. *)
Record generated_class : Type := mkClass {
  class_name : string;
  properties : list (string * decl * bool);
  additional : bool
}.

(** Modelled from the spec: a value held by an instance of a generated
    class: a plain value, a sequence, or an instance with its property
    values. *)
#[warnings="-register-all"]
Inductive obj : Type :=
| OPlain (v : pyval)
| OSeq (items : list obj)
| OInst (cls : string) (props : list (string * obj)).

Definition find_class (classes : list generated_class) (name : string)
  : option generated_class :=
  find (fun c => String.eqb (class_name c) name) classes.

Definition find_property (c : generated_class) (name : string)
  : option decl :=
  match find (fun p => String.eqb (fst (fst p)) name) (properties c) with
  | Some p => Some (snd (fst p))
  | None => None
  end.

(** Every required property has a value in the mapping. *)
Definition required_present (c : generated_class) (m : dict) : bool :=
  forallb (fun p => negb (snd p) || dict_contains m (fst (fst p)))
    (properties c).

(** Modelled from the spec: a value satisfies a declaration. A mapping
    satisfies the constraints of a class when its required properties are
    present, each declared property satisfies its declaration, and other
    properties occur only where the class permits them. *)
Fixpoint conforms (classes : list generated_class) (v : pyval) (d : decl)
  {struct v} : bool :=
  match d with
  | DPlain accepts => accepts v
  | DArray item =>
      match v with
      | PList l =>
          (fix all (l : list pyval) : bool :=
             match l with
             | [] => true
             | x :: l' => conforms classes x item && all l'
             end) l
      | _ => false
      end
  | DInstance cls =>
      match v, find_class classes cls with
      | PDict m, Some c =>
          required_present c m
          && (fix all (m : list (string * pyval)) : bool :=
                match m with
                | [] => true
                | (k, x) :: m' =>
                    match find_property c k with
                    | Some d' => conforms classes x d'
                    | None => additional c
                    end && all m'
                end) m
      | _, _ => false
      end
  end.

(** Modelled from the spec: deserialization. The value of an
    instance-of-class property is the instance built from the nested
    mapping; a mapping that violates the constraints is rejected. *)
Fixpoint from_value (classes : list generated_class) (v : pyval) (d : decl)
  {struct v} : option obj :=
  match d with
  | DPlain accepts => if accepts v then Some (OPlain v) else None
  | DArray item =>
      match v with
      | PList l =>
          option_map OSeq
            ((fix each (l : list pyval) : option (list obj) :=
                match l with
                | [] => Some []
                | x :: l' =>
                    match from_value classes x item, each l' with
                    | Some o, Some os => Some (o :: os)
                    | _, _ => None
                    end
                end) l)
      | _ => None
      end
  | DInstance cls =>
      match v, find_class classes cls with
      | PDict m, Some c =>
          if required_present c m then
            option_map (OInst cls)
              ((fix each (m : list (string * pyval))
                  : option (list (string * obj)) :=
                  match m with
                  | [] => Some []
                  | (k, x) :: m' =>
                      match
                        match find_property c k with
                        | Some d' => from_value classes x d'
                        | None =>
                            if additional c then Some (OPlain x) else None
                        end, each m'
                      with
                      | Some o, Some os => Some ((k, o) :: os)
                      | _, _ => None
                      end
                  end) m)
          else None
      | _, _ => None
      end
  end.

(** Modelled from the spec: [C.from_dict(m)], the factory that builds an
    instance of class [C] from a plain mapping. *)
Definition from_dict (classes : list generated_class) (cls : string)
  (m : dict) : option obj :=
  from_value classes (PDict m) (DInstance cls).

(** Modelled from the spec: serialization, [instance.to_dict()]: an
    instance becomes the plain mapping of its property values. *)
Fixpoint to_dict (o : obj) : pyval :=
  match o with
  | OPlain v => v
  | OSeq items => PList (map to_dict items)
  | OInst _ props => PDict (map (fun kv => (fst kv, to_dict (snd kv))) props)
  end.

(** The classes of the schema in [test_codegen.py], and the mapping of
    its test. *)
Definition is_string (v : pyval) : bool :=
  match v with PStr _ => true | _ => false end.

Definition is_integer (v : pyval) : bool :=
  match v with PInt _ => true | _ => false end.

Definition family_classes : list generated_class :=
  [mkClass "Family" [("people", DArray (DInstance "Person"), false)] true;
   mkClass "Person" [("name", DPlain is_string, false);
                     ("age", DPlain is_integer, false)] true].

Definition family_dict : dict :=
  [("people",
    PList [PDict [("name", PStr "Alice"); ("age", PInt 25)];
           PDict [("name", PStr "Bob"); ("age", PInt 26)]])].

(** ** Further sample schemas *)

Definition enum_schema : dict :=
  [("enum", PList [PInt 1; PInt 2; PStr "three"])].

Definition plain_union_schema : dict :=
  [("type", PList [PStr "string"; PStr "number"]); ("minimum", PInt 0)].

(** The second sub-schema is an anonymous object, which no extractor
    supports. *)
Definition anyof_schema : dict :=
  [("anyOf", PList [PDict [("type", PStr "string")];
                    PDict [("type", PStr "object")];
                    PDict [("type", PStr "integer")]])].

Definition oneof_schema : dict :=
  [("oneOf", PList [PDict [("type", PStr "string")];
                    PDict [("type", PStr "integer")]])].

Definition not_schema : dict :=
  [("not", PDict [("type", PStr "string")])].

Definition empty_allof_schema : dict := [("allOf", PList [])].

(** [integer_schema] with other keywords around the numeric ones. *)
Definition titled_integer_schema : dict :=
  [("title", PStr "Age"); ("multipleOf", PInt 5); ("type", PStr "integer");
   ("minLength", PInt 2); ("minimum", PInt 0)].

(** The five numeric validation keywords, in the order of
    [validation_keys]. *)
Definition numeric_keys : list string :=
  ["minimum"; "exclusiveMinimum"; "maximum"; "exclusiveMaximum";
   "multipleOf"].

(** The keyword arguments [CompoundTraitCode.trait_code] goes on with,
    for a type code that is the list [ts] of strings: [allow_none] is set
    when "null" is among them. *)
Definition compound_kwargs (ts : list string) (kwargs : dict) : dict :=
  if existsb (fun t => String.eqb t "null") ts
  then dict_set kwargs "allow_none" (PBool true)
  else kwargs.

(** The entries of a type list other than "null". *)
Definition without_null (ts : list string) : list string :=
  List.filter (fun t => negb (String.eqb t "null")) ts.

(** * Properties *)

(** ** Dictionaries *)

Lemma dict_get_set (d : dict) (k k' : string) (v : pyval) :
  dict_get (dict_set d k v) k'
  = if String.eqb k k' then Some v else dict_get d k'.
Proof.
  induction d as [|[k0 w] d IH]; simpl.
  - reflexivity.
  - destruct (String.eqb_spec k0 k) as [->|Hne]; simpl.
    + destruct (String.eqb k k'); reflexivity.
    + rewrite IH. destruct (String.eqb_spec k0 k') as [->|Hne'].
      * destruct (String.eqb_spec k k'); congruence.
      * reflexivity.
Qed.

Lemma dict_contains_get (d : dict) (k : string) :
  dict_contains d k
  = match dict_get d k with Some _ => true | None => false end.
Proof.
  induction d as [|[k0 w] d IH]; simpl; [reflexivity|].
  destruct (String.eqb k0 k); auto.
Qed.

Lemma dict_get_absent (d : dict) (k : string) :
  ~ In k (map fst d) -> dict_get d k = None.
Proof.
  induction d as [|[k0 w] d IH]; simpl; intros Hk; [reflexivity|].
  destruct (String.eqb_spec k0 k) as [->|Hne]; [tauto|].
  apply IH. tauto.
Qed.

Lemma dict_set_keys (d : dict) (k : string) (v : pyval) :
  map fst (dict_set d k v)
  = if dict_contains d k then map fst d else (map fst d ++ [k])%list.
Proof.
  induction d as [|[k0 w] d IH]; simpl; [reflexivity|].
  destruct (String.eqb_spec k0 k) as [->|Hne]; simpl; [reflexivity|].
  rewrite IH. destruct (dict_contains d k); reflexivity.
Qed.

Lemma dict_contains_in (d : dict) (k : string) :
  dict_contains d k = true <-> In k (map fst d).
Proof.
  induction d as [|[k0 w] d IH]; simpl.
  - split; [discriminate|tauto].
  - destruct (String.eqb_spec k0 k) as [->|Hne]; [tauto|].
    rewrite IH. tauto.
Qed.

Lemma dict_wf_set (d : dict) (k : string) (v : pyval) :
  dict_wf d -> dict_wf (dict_set d k v).
Proof.
  unfold dict_wf. intros Hd. rewrite dict_set_keys.
  destruct (dict_contains d k) eqn:Hc; [exact Hd|].
  apply NoDup_app. split; [exact Hd|]. split.
  - intros x Hx Hk. apply list_elem_of_In in Hx.
    apply list_elem_of_In in Hk. destruct Hk as [<-|[]].
    apply dict_contains_in in Hx. congruence.
  - apply NoDup_singleton.
Qed.

Lemma dict_get_update (d new : dict) (k : string) :
  dict_wf new ->
  dict_get (dict_update d new) k
  = match dict_get new k with
    | Some v => Some v
    | None => dict_get d k
    end.
Proof.
  unfold dict_update, dict_wf. revert d.
  induction new as [|[k0 w] new IH]; intros d Hwf; simpl; [reflexivity|].
  apply NoDup_cons in Hwf as [Hk0 Hwf].
  rewrite IH by exact Hwf. rewrite dict_get_set.
  destruct (String.eqb_spec k0 k) as [->|Hne]; [|reflexivity].
  rewrite dict_get_absent; [reflexivity|].
  intros Hin. apply Hk0. apply list_elem_of_In. exact Hin.
Qed.

Lemma present_in_wf (d : dict) (keys : list string) (acc : dict) :
  dict_wf acc -> dict_wf (present_in d keys acc).
Proof.
  unfold present_in. revert acc.
  induction keys as [|key keys IH]; intros acc Hacc; simpl; [exact Hacc|].
  apply IH. destruct (dict_get d key); [apply dict_wf_set|]; exact Hacc.
Qed.

Lemma dict_get_present_in (d : dict) (keys : list string) (acc : dict)
  (k : string) :
  dict_get (present_in d keys acc) k
  = if existsb (String.eqb k) keys
    then match dict_get d k with
         | Some v => Some v
         | None => dict_get acc k
         end
    else dict_get acc k.
Proof.
  unfold present_in. revert acc.
  induction keys as [|key keys IH]; intros acc; simpl; [reflexivity|].
  rewrite IH. rewrite (String.eqb_sym k key).
  destruct (String.eqb_spec key k) as [->|Hne]; simpl.
  - destruct (dict_get d k) eqn:Hd.
    + rewrite dict_get_set, String.eqb_refl.
      destruct (existsb _ keys); reflexivity.
    + destruct (existsb _ keys); reflexivity.
  - destruct (dict_get d key) eqn:Hd; [|reflexivity].
    rewrite dict_get_set.
    destruct (String.eqb_spec key k); [contradiction|reflexivity].
Qed.

(** ** Running a computation *)

Lemma bind_ok {A B : Type} (m : M A) (k : A -> M B) (h h' : store) (a : A) :
  m h = (Ok a, h') -> bind m k h = k a h'.
Proof. intros H. unfold bind. rewrite H. reflexivity. Qed.

Lemma bind_raise {A B : Type} (m : M A) (k : A -> M B) (h h' : store)
  (e : exn) :
  m h = (Raise e, h') -> bind m k h = (Raise e, h').
Proof. intros H. unfold bind. rewrite H. reflexivity. Qed.

(** ** Reading a node *)

Section Reading.

Context {api : SchemaAPI}.
Variables (h : store) (l : loc) (n : JSONSchema).
Hypothesis Hl : h !! l = Some n.

Lemma get_node_run : get_node l h = (Ok n, h).
Proof using Hl. unfold get_node. rewrite Hl. reflexivity. Qed.

Lemma node_contains_run (key : string) :
  node_contains l key h = (Ok (dict_contains (subtree n) key), h).
Proof using Hl. unfold node_contains, bind. rewrite get_node_run. reflexivity. Qed.

Lemma node_getitem_run (key : string) :
  node_getitem l key h
  = (match dict_get (subtree n) key with
     | Some v => Ok v
     | None => Raise (KeyError (PStr key))
     end, h).
Proof using Hl.
  unfold node_getitem, bind. rewrite get_node_run.
  destruct (dict_get (subtree n) key); reflexivity.
Qed.

Lemma init_run (typ : pyval) :
  TraitCodeExtractor.init l typ h
  = (Ok (mkExtractor l (if py_truthy typ then typ else node_type n)), h).
Proof using Hl.
  unfold TraitCodeExtractor.init.
  destruct (py_truthy typ); [reflexivity|].
  unfold bind. rewrite get_node_run. reflexivity.
Qed.

Lemma present_items_run (keys : list string) (acc : dict) :
  present_items l keys acc h = (Ok (present_in (subtree n) keys acc), h).
Proof using Hl.
  revert acc. induction keys as [|key keys IH]; intros acc; simpl.
  - reflexivity.
  - unfold bind at 1. rewrite node_contains_run, dict_contains_get.
    destruct (dict_get (subtree n) key) eqn:Hk.
    + unfold bind. rewrite node_getitem_run, Hk. apply IH.
    + apply IH.
Qed.

Lemma forward_key_run (key name : string) (kwargs : dict) :
  forward_key l key name kwargs h
  = (Ok match dict_get (subtree n) key with
        | Some v => dict_set kwargs name v
        | None => kwargs
        end, h).
Proof using Hl.
  unfold forward_key, bind. rewrite node_contains_run, dict_contains_get.
  destruct (dict_get (subtree n) key) eqn:Hk; [|reflexivity].
  rewrite node_getitem_run, Hk. reflexivity.
Qed.

End Reading.

(** ** [SimpleTraitCode] *)

Section Simple.

Context {api : SchemaAPI}.
Variables (h : store) (l : loc) (n : JSONSchema).
Hypothesis Hl : h !! l = Some n.

(** [SimpleTraitCode(schema, t).trait_code(kwargs)] for a simple type
    name [t] only reads the node. *)
Lemma simple_trait_code_run (t : string) (kwargs : dict) :
  In t simple_types ->
  exists cls keys,
    table_getitem classes (PStr t) = Ok cls
    /\ table_get validation_keys (PStr t) [] = Ok keys
    /\ SimpleTraitCode.trait_code (mkExtractor l (PStr t)) kwargs h
       = (Ok (construct_function_call cls []
                (dict_update kwargs (present_in (subtree n) keys []))), h).
Proof using Hl.
  intros Ht.
  assert (Htab : exists cls keys,
             table_getitem classes (PStr t) = Ok cls
             /\ table_get validation_keys (PStr t) [] = Ok keys).
  { simpl in Ht. destruct Ht as [<-|[<-|[<-|[<-|[<-|[]]]]]];
      eexists _, _; split; reflexivity. }
  destruct Htab as (cls & keys & Hcls & Hkeys).
  exists cls, keys. split; [exact Hcls|]. split; [exact Hkeys|].
  unfold SimpleTraitCode.trait_code, bind, lift. cbn [typecode schema].
  rewrite Hcls, Hkeys, (present_items_run h l n Hl). reflexivity.
Qed.

(** A simple type name is never the empty string, so the constructor
    keeps it as the type code. *)
Lemma simple_type_truthy (t : string) :
  In t simple_types -> py_truthy (PStr t) = true.
Proof.
  simpl. intros [<-|[<-|[<-|[<-|[<-|[]]]]]]; reflexivity.
Qed.

End Simple.

(** C3. For a node whose type is one of boolean, null, number, integer,
    string, [SimpleTraitCode(schema).check()] is true and
    [trait_code(kwargs)] is a call to the constructor of that primitive
    kind. When the type is number or integer, each of minimum,
    exclusiveMinimum, maximum, exclusiveMaximum, multipleOf present on the
    schema is a keyword argument of the call with the schema's value;
    every other keyword argument is the caller's. *)
Theorem simple_scalar_call {api : SchemaAPI} (h : store) (l : loc)
  (n : JSONSchema) (t : string) (kwargs : dict) :
  h !! l = Some n ->
  node_type n = PStr t ->
  In t ["boolean"; "null"; "number"; "integer"; "string"] ->
  exists cls kw,
    In (t, cls) [("boolean", "jst.JSONBoolean"); ("null", "jst.JSONNull");
                 ("number", "jst.JSONNumber"); ("integer", "jst.JSONInteger");
                 ("string", "jst.JSONString")]
    /\ (self <- TraitCodeExtractor.init l PNone ;;
        SimpleTraitCode.check self) h = (Ok true, h)
    /\ (self <- TraitCodeExtractor.init l PNone ;;
        SimpleTraitCode.trait_code self kwargs) h
       = (Ok (construct_function_call cls [] kw), h)
    /\ (t = "number" \/ t = "integer" ->
        forall key v,
          In key ["minimum"; "exclusiveMinimum"; "maximum";
                  "exclusiveMaximum"; "multipleOf"] ->
          dict_get (subtree n) key = Some v ->
          dict_get kw key = Some v)
    /\ (forall key,
          dict_get (subtree n) key = None
          \/ ~ In key ["minimum"; "exclusiveMinimum"; "maximum";
                       "exclusiveMaximum"; "multipleOf"] ->
          dict_get kw key = dict_get kwargs key).
Proof.
  intros Hl Ht Hin.
  destruct (simple_trait_code_run h l n Hl t kwargs Hin)
    as (cls & keys & Hcls & Hkeys & Hrun).
  exists cls, (dict_update kwargs (present_in (subtree n) keys [])).
  assert (Hget : forall key,
             dict_get (dict_update kwargs (present_in (subtree n) keys [])) key
             = if existsb (String.eqb key) keys
               then match dict_get (subtree n) key with
                    | Some v => Some v
                    | None => dict_get kwargs key
                    end
               else dict_get kwargs key).
  { intros key. rewrite dict_get_update by (apply present_in_wf; constructor).
    rewrite dict_get_present_in. simpl.
    destruct (existsb (String.eqb key) keys); [|reflexivity].
    destruct (dict_get (subtree n) key); reflexivity. }
  assert (Hinit : TraitCodeExtractor.init l PNone h
                  = (Ok (mkExtractor l (PStr t)), h)).
  { rewrite (init_run h l n Hl). simpl. rewrite Ht. reflexivity. }
  split; [|split; [|split; [|split]]].
  - simpl in Hin. destruct Hin as [<-|[<-|[<-|[<-|[<-|[]]]]]];
      simpl in Hcls; injection Hcls as <-; simpl; tauto.
  - unfold bind. rewrite Hinit. unfold SimpleTraitCode.check, ret. simpl.
    simpl in Hin. destruct Hin as [<-|[<-|[<-|[<-|[<-|[]]]]]]; reflexivity.
  - unfold bind at 1. rewrite Hinit. exact Hrun.
  - intros Hnum key v Hkey Hv. rewrite Hget, Hv.
    destruct Hnum as [->| ->]; simpl in Hkeys; injection Hkeys as <-;
      simpl in Hkey; destruct Hkey as [<-|[<-|[<-|[<-|[<-|[]]]]]];
      reflexivity.
  - intros key Hkey. rewrite Hget.
    destruct (existsb (String.eqb key) keys) eqn:Hex; [|reflexivity].
    destruct Hkey as [-> |Hnot]; [reflexivity|].
    exfalso. apply Hnot. apply existsb_exists in Hex as (k & Hk & Hkk).
    apply String.eqb_eq in Hkk. subst k.
    simpl in Hin. destruct Hin as [<-|[<-|[<-|[<-|[<-|[]]]]]];
      simpl in Hkeys; injection Hkeys as <-; simpl in Hk |- *; tauto.
Qed.

(** C10. For a node of type string, boolean or null,
    [SimpleTraitCode(schema).trait_code(kwargs)] passes exactly the
    caller's keyword arguments on: nothing on the schema, such as
    minLength, maxLength or pattern, reaches the generated call. *)
Theorem simple_no_constraints {api : SchemaAPI} (h : store) (l : loc)
  (n : JSONSchema) (t : string) (kwargs : dict) :
  h !! l = Some n ->
  node_type n = PStr t ->
  In t ["string"; "boolean"; "null"] ->
  exists cls,
    In (t, cls) [("string", "jst.JSONString"); ("boolean", "jst.JSONBoolean");
                 ("null", "jst.JSONNull")]
    /\ (self <- TraitCodeExtractor.init l PNone ;;
        SimpleTraitCode.trait_code self kwargs) h
       = (Ok (construct_function_call cls [] kwargs), h).
Proof.
  intros Hl Ht Hin.
  assert (Hinit : TraitCodeExtractor.init l PNone h
                  = (Ok (mkExtractor l (PStr t)), h)).
  { rewrite (init_run h l n Hl). simpl. rewrite Ht. reflexivity. }
  unfold bind. rewrite Hinit.
  simpl in Hin. destruct Hin as [<-|[<-|[<-|[]]]];
    eexists; (split; [|reflexivity]); simpl; tauto.
Qed.

(** ** [CompoundTraitCode] *)

Lemma filter_not_null (ts : list string) :
  List.filter (fun typ => negb (py_eq_str typ "null")) (map PStr ts)
  = map PStr (List.filter (fun t => negb (String.eqb t "null")) ts).
Proof.
  induction ts as [|t ts IH]; [reflexivity|].
  cbn [map List.filter py_eq_str].
  destruct (String.eqb t "null"); cbn [negb map]; rewrite IH; reflexivity.
Qed.

Lemma has_null (ts : list string) :
  In "null" ts ->
  existsb (fun x => py_eq_str x "null") (map PStr ts) = true.
Proof.
  intros Hin. apply existsb_exists. exists (PStr "null"). split.
  - apply in_map. exact Hin.
  - reflexivity.
Qed.

Lemma all_simple (ts : list string) :
  Forall (fun t => In t simple_types) ts ->
  forallb (fun typ => py_in_strs typ simple_types) (map PStr ts) = true.
Proof.
  intros Hts. apply forallb_forall. intros x Hx.
  apply in_map_iff in Hx as (t & <- & Ht).
  rewrite Forall_forall in Hts. apply list_elem_of_In, Hts in Ht.
  simpl in Ht. destruct Ht as [<-|[<-|[<-|[<-|[<-|[]]]]]]; reflexivity.
Qed.

Lemma dict_get_item_kwargs (kwargs : dict) (key : string) :
  dict_get (item_kwargs_of kwargs) key
  = if String.eqb key "allow_none" || String.eqb key "allow_undefined"
    then None else dict_get kwargs key.
Proof.
  unfold item_kwargs_of.
  induction kwargs as [|[k v] kwargs IH].
  - destruct (_ || _); reflexivity.
  - cbn in IH |- *.
    destruct (String.eqb_spec k key) as [->|Hne].
    + destruct (String.eqb key "allow_none"); cbn.
      { exact IH. }
      destruct (String.eqb key "allow_undefined"); cbn.
      { exact IH. }
      rewrite String.eqb_refl. reflexivity.
    + destruct (String.eqb k "allow_none"); cbn; [exact IH|].
      destruct (String.eqb k "allow_undefined"); cbn; [exact IH|].
      destruct (String.eqb_spec k key); [contradiction|exact IH].
Qed.

(** [', '.join(parts)] is the parts in order with the separator between
    each two of them and nowhere else: [str_join] agrees with the
    Standard Library's [String.concat]. *)
Lemma str_join_concat (sep : string) (parts : list string) :
  str_join sep parts = String.concat sep parts.
Proof.
  induction parts as [|p [|q rest] IH]; [reflexivity|reflexivity|].
  change (p +:+ sep +:+ str_join sep (q :: rest)
          = p +:+ sep +:+ String.concat sep (q :: rest)).
  rewrite IH. reflexivity.
Qed.

Section Compound.

Context {api : SchemaAPI}.
Variables (h : store) (l : loc) (n : JSONSchema).
Hypothesis Hl : h !! l = Some n.

(** The branches of the union: one simple-scalar code per type name. *)
Lemma compound_items_run (rest : list string) (item_kwargs : dict) :
  Forall (fun t => In t simple_types) rest ->
  exists codes,
    Forall2 (fun t code =>
               SimpleTraitCode.trait_code (mkExtractor l (PStr t))
                 item_kwargs h = (Ok code, h)) rest codes
    /\ mapM (fun typ =>
               simple <- TraitCodeExtractor.init l typ ;;
               SimpleTraitCode.trait_code simple item_kwargs)
            (map PStr rest) h = (Ok codes, h).
Proof using Hl.
  induction rest as [|t rest IH]; intros Hrest.
  - exists []. split; [constructor|reflexivity].
  - apply Forall_cons in Hrest as [Ht Hrest].
    destruct (IH Hrest) as (codes & Hcodes & Hrun).
    destruct (simple_trait_code_run h l n Hl t item_kwargs Ht)
      as (cls & keys & _ & _ & Hsimple).
    eexists (_ :: codes). split.
    + constructor; [exact Hsimple|exact Hcodes].
    + cbn [map mapM]. unfold bind at 1. unfold bind at 1.
      rewrite (init_run h l n Hl), (simple_type_truthy t Ht), Hsimple.
      rewrite (bind_ok _ _ _ _ _ Hrun). reflexivity.
Qed.

End Compound.

(** C1. For a node whose type is a list of simple type names containing
    "null", [CompoundTraitCode(schema).check()] is true and
    [trait_code(kwargs)] sets [allow_none] and drops "null" from the
    list. If one type remains, the
    result is the simple-scalar code of that type, called with the
    keyword arguments including [allow_none]. Otherwise it is a
    [jst.JSONUnion] call over one simple-scalar code per remaining type:
    the branches are built without [allow_none] and [allow_undefined],
    the union call carries all keyword arguments, and its one positional
    argument is the text made of an opening bracket, the branch codes in
    the order of the remaining types with a comma and a space between
    each two of them, and a closing bracket. *)
Theorem compound_with_null {api : SchemaAPI} (h : store) (l : loc)
  (n : JSONSchema) (ts : list string) (kwargs : dict) :
  h !! l = Some n ->
  node_type n = PList (map PStr ts) ->
  Forall (fun t => In t ["boolean"; "null"; "number"; "integer"; "string"])
    ts ->
  In "null" ts ->
  let run := (self <- TraitCodeExtractor.init l PNone ;;
              CompoundTraitCode.trait_code self kwargs) h in
  let kwargs' := dict_set kwargs "allow_none" (PBool true) in
  let rest := List.filter (fun t => negb (String.eqb t "null")) ts in
  (self <- TraitCodeExtractor.init l PNone ;;
   CompoundTraitCode.check self) h = (Ok true, h)
  /\ dict_get kwargs' "allow_none" = Some (PBool true)
  /\ ~ In "null" rest
  /\ (forall t, rest = [t] ->
        run = SimpleTraitCode.trait_code (mkExtractor l (PStr t)) kwargs' h)
  /\ (length rest <> 1 ->
      exists codes,
        Forall2 (fun t code =>
                   SimpleTraitCode.trait_code (mkExtractor l (PStr t))
                     (item_kwargs_of kwargs') h = (Ok code, h)) rest codes
        /\ (forall key,
              dict_get (item_kwargs_of kwargs') key
              = if String.eqb key "allow_none"
                   || String.eqb key "allow_undefined"
                then None else dict_get kwargs' key)
        /\ run = (Ok (construct_function_call "jst.JSONUnion"
                        [PVariable
                           (PStr ("[" +:+ String.concat ", " codes
                                      +:+ "]"))]
                        kwargs'), h)).
Proof.
  intros Hl Ht Hts Hnull run kwargs' rest.
  assert (Hrest : Forall (fun t => In t simple_types) rest).
  { apply Forall_forall. intros t Hin. apply list_elem_of_In in Hin.
    apply filter_In in Hin as [Hin _]. rewrite Forall_forall in Hts.
    apply Hts, list_elem_of_In, Hin. }
  assert (Hrun : run
                 = match map PStr rest with
                   | [typ] =>
                       (simple <- TraitCodeExtractor.init l typ ;;
                        SimpleTraitCode.trait_code simple kwargs') h
                   | typecode =>
                       (codes <- mapM
                          (fun typ =>
                             simple <- TraitCodeExtractor.init l typ ;;
                             SimpleTraitCode.trait_code simple
                               (item_kwargs_of kwargs')) typecode ;;
                        ret (construct_function_call "jst.JSONUnion"
                               [PVariable
                                  (PStr ("[" +:+ str_join ", " codes
                                             +:+ "]"))] kwargs')) h
                   end).
  { unfold run. erewrite bind_ok; [|rewrite (init_run h l n Hl); reflexivity].
    cbn [py_truthy]. rewrite Ht.
    unfold CompoundTraitCode.trait_code. cbn [typecode schema].
    erewrite bind_ok; [|unfold lift; cbn [py_contains_str];
                        rewrite (has_null ts Hnull); reflexivity].
    erewrite bind_ok; [|reflexivity].
    rewrite filter_not_null. fold rest. fold kwargs'.
    destruct (map PStr rest) as [|typ [|typ' typs]]; reflexivity. }
  split; [|split; [|split; [|split]]].
  - erewrite bind_ok; [|rewrite (init_run h l n Hl); reflexivity].
    cbn [py_truthy]. rewrite Ht.
    unfold CompoundTraitCode.check, bind, lift, ret. cbn [typecode py_iter].
    rewrite (all_simple ts); [reflexivity|].
    exact Hts.
  - unfold kwargs'. rewrite dict_get_set, String.eqb_refl. reflexivity.
  - intros Hin. apply filter_In in Hin as [_ Hneq]. discriminate.
  - intros t Hone. rewrite Hrun, Hone. cbn [map].
    rewrite Hone in Hrest. apply Forall_cons in Hrest as [Hsimple _].
    erewrite bind_ok; [reflexivity|].
    rewrite (init_run h l n Hl), (simple_type_truthy t Hsimple). reflexivity.
  - intros Hlen.
    destruct (compound_items_run h l n Hl rest (item_kwargs_of kwargs') Hrest)
      as (codes & Hcodes & Hmap).
    exists codes. split; [exact Hcodes|]. split.
    { intros key. apply dict_get_item_kwargs. }
    rewrite Hrun, <- (str_join_concat ", " codes).
    destruct rest as [|t [|t' rest']]; cbn [map] in Hmap |- *.
    + erewrite bind_ok; [|exact Hmap]. reflexivity.
    + exfalso. apply Hlen. reflexivity.
    + erewrite bind_ok; [|exact Hmap]. reflexivity.
Qed.

(** C9. For a node whose type is the list ["null"] or the empty list,
    [CompoundTraitCode(schema).check()] is true and [trait_code] returns
    a [jst.JSONUnion] call over the empty list of branches, with
    [allow_none] set in the ["null"] case and the caller's keyword
    arguments unchanged in the empty case. *)
Theorem compound_only_null {api : SchemaAPI} (h : store) (l : loc)
  (n : JSONSchema) (kwargs : dict) :
  h !! l = Some n ->
  node_type n = PList [PStr "null"] \/ node_type n = PList [] ->
  let check := (self <- TraitCodeExtractor.init l PNone ;;
                CompoundTraitCode.check self) h in
  let run := (self <- TraitCodeExtractor.init l PNone ;;
              CompoundTraitCode.trait_code self kwargs) h in
  check = (Ok true, h)
  /\ (node_type n = PList [PStr "null"] ->
      run = (Ok (construct_function_call "jst.JSONUnion"
                   [PVariable (PStr "[]")]
                   (dict_set kwargs "allow_none" (PBool true))), h))
  /\ (node_type n = PList [] ->
      run = (Ok (construct_function_call "jst.JSONUnion"
                   [PVariable (PStr "[]")] kwargs), h)).
Proof.
  intros Hl Ht check run.
  assert (Hinit : TraitCodeExtractor.init l PNone h
                  = (Ok (mkExtractor l (node_type n)), h)).
  { rewrite (init_run h l n Hl). reflexivity. }
  unfold check, run. rewrite !(bind_ok _ _ _ _ _ Hinit).
  split; [|split].
  - destruct Ht as [-> | ->]; reflexivity.
  - intros ->. reflexivity.
  - intros ->. reflexivity.
Qed.

(** ** [ObjectTraitCode] and [ArrayTraitCode] *)

(** C5. For a node of type "object", [ObjectTraitCode(schema).check()] is
    true and [trait_code] raises [NotImplementedError("Anonymous
    Objects")] whatever the keyword arguments: no declaration is
    returned. *)
Theorem anonymous_object_unsupported {api : SchemaAPI} (h : store) (l : loc)
  (n : JSONSchema) :
  h !! l = Some n ->
  node_type n = PStr "object" ->
  (self <- TraitCodeExtractor.init l PNone ;;
   ObjectTraitCode.check self) h = (Ok true, h)
  /\ forall kwargs,
      (self <- TraitCodeExtractor.init l PNone ;;
       ObjectTraitCode.trait_code self kwargs) h
      = (Raise (NotImplementedError "Anonymous Objects"), h).
Proof.
  intros Hl Ht.
  assert (Hinit : TraitCodeExtractor.init l PNone h
                  = (Ok (mkExtractor l (PStr "object")), h)).
  { rewrite (init_run h l n Hl). simpl. rewrite Ht. reflexivity. }
  split; [|intros kwargs]; rewrite (bind_ok _ _ _ _ _ Hinit); reflexivity.
Qed.

Section Array.

Context {api : SchemaAPI}.
Variables (h : store) (l : loc) (n : JSONSchema).
Hypothesis Hl : h !! l = Some n.

Lemma array_trait_code_run (typ : pyval) (kwargs : dict) :
  ArrayTraitCode.trait_code (mkExtractor l typ) kwargs h
  = match dict_get (subtree n) "items" with
    | None => (Raise (KeyError (PStr "items")), h)
    | Some items =>
        if py_is_list items
        then (Raise (NotImplementedError "'items' keyword as list"), h)
        else (child <- make_child l items ;;
              itemtype <- trait_code child ;;
              ret (construct_function_call "jst.JSONArray"
                     [PVariable (PStr itemtype)] (array_kwargs (subtree n) kwargs))) h
    end.
Proof using Hl.
  unfold ArrayTraitCode.trait_code. cbn [schema].
  destruct (dict_get (subtree n) "items") as [items|] eqn:Hitems.
  - erewrite bind_ok; [|rewrite (node_getitem_run h l n Hl), Hitems;
                        reflexivity].
    erewrite bind_ok; [|apply (forward_key_run h l n Hl)].
    erewrite bind_ok; [|apply (forward_key_run h l n Hl)].
    erewrite bind_ok; [|apply (forward_key_run h l n Hl)].
    fold (array_kwargs (subtree n) kwargs).
    destruct (py_is_list items); reflexivity.
  - erewrite bind_raise; [reflexivity|].
    rewrite (node_getitem_run h l n Hl), Hitems. reflexivity.
Qed.

Lemma dict_get_array_kwargs (kwargs : dict) (key : string) :
  dict_get (array_kwargs (subtree n) kwargs) key
  = match (if String.eqb key "minlen" then Some "minItems"
           else if String.eqb key "maxlen" then Some "maxItems"
           else if String.eqb key "uniqueItems" then Some "uniqueItems"
           else None) with
    | Some from =>
        match dict_get (subtree n) from with
        | Some v => Some v
        | None => dict_get kwargs key
        end
    | None => dict_get kwargs key
    end.
Proof.
  unfold array_kwargs.
  destruct (dict_get (subtree n) "minItems") eqn:Hmin;
    destruct (dict_get (subtree n) "maxItems") eqn:Hmax;
    destruct (dict_get (subtree n) "uniqueItems") eqn:Huni;
    rewrite ?dict_get_set;
    rewrite ?(String.eqb_sym _ key);
    destruct (String.eqb key "minlen") eqn:E1;
    destruct (String.eqb key "maxlen") eqn:E2;
    destruct (String.eqb key "uniqueItems") eqn:E3;
    rewrite ?Hmin, ?Hmax, ?Huni;
    try reflexivity;
    repeat match goal with
           | E : String.eqb _ _ = true |- _ => apply String.eqb_eq in E
           end;
    congruence.
Qed.

End Array.

(** C4. For a node of type "array", [ArrayTraitCode(schema).check()] is
    true; when [items] is a list, [trait_code] raises
    [NotImplementedError("'items' keyword as list")], the error by which
    the code reports a recognised but unsupported construct, and returns
    no declaration; when the node has no [items] key, [trait_code] raises
    [KeyError('items')]. *)
Theorem array_tuple_items_unsupported {api : SchemaAPI} (h : store) (l : loc)
  (n : JSONSchema) (kwargs : dict) :
  h !! l = Some n ->
  node_type n = PStr "array" ->
  let run := (self <- TraitCodeExtractor.init l PNone ;;
              ArrayTraitCode.trait_code self kwargs) h in
  (self <- TraitCodeExtractor.init l PNone ;;
   ArrayTraitCode.check self) h = (Ok true, h)
  /\ (forall items,
        dict_get (subtree n) "items" = Some (PList items) ->
        run = (Raise (NotImplementedError "'items' keyword as list"), h))
  /\ (dict_get (subtree n) "items" = None ->
      run = (Raise (KeyError (PStr "items")), h)).
Proof.
  intros Hl Ht run.
  assert (Hinit : TraitCodeExtractor.init l PNone h
                  = (Ok (mkExtractor l (node_type n)), h)).
  { rewrite (init_run h l n Hl). reflexivity. }
  unfold run. rewrite !(bind_ok _ _ _ _ _ Hinit).
  rewrite (array_trait_code_run h l n Hl).
  split; [|split].
  - unfold ArrayTraitCode.check. cbn [schema].
    erewrite bind_ok; [|apply (get_node_run h l n Hl)].
    rewrite Ht. reflexivity.
  - intros items ->. reflexivity.
  - intros ->. reflexivity.
Qed.

(** C6. For a node of type "array" whose [items] is not a list,
    [ArrayTraitCode(schema).trait_code(kwargs)] makes a child node at
    [items], takes that node's trait code as the element code, and
    returns a [jst.JSONArray] call on it. In the keyword arguments of the
    call, [minlen] is the schema's [minItems], [maxlen] its [maxItems]
    and [uniqueItems] its [uniqueItems], each when the schema has the
    key; every other keyword argument is the caller's. *)
Theorem array_items_child {api : SchemaAPI} (h : store) (l : loc)
  (n : JSONSchema) (items : pyval) (kwargs : dict) :
  h !! l = Some n ->
  node_type n = PStr "array" ->
  dict_get (subtree n) "items" = Some items ->
  py_is_list items = false ->
  exists kw,
    (self <- TraitCodeExtractor.init l PNone ;;
     ArrayTraitCode.trait_code self kwargs) h
    = (child <- make_child l items ;;
       itemtype <- trait_code child ;;
       ret (construct_function_call "jst.JSONArray"
              [PVariable (PStr itemtype)] kw)) h
    /\ (forall key from,
          In (key, from) [("minlen", "minItems"); ("maxlen", "maxItems");
                          ("uniqueItems", "uniqueItems")] ->
          dict_get kw key
          = match dict_get (subtree n) from with
            | Some v => Some v
            | None => dict_get kwargs key
            end)
    /\ (forall key,
          ~ In key ["minlen"; "maxlen"; "uniqueItems"] ->
          dict_get kw key = dict_get kwargs key).
Proof.
  intros Hl Ht Hitems Hlist.
  exists (array_kwargs (subtree n) kwargs).
  split; [|split].
  - erewrite bind_ok; [|rewrite (init_run h l n Hl); reflexivity].
    cbn [py_truthy]. rewrite (array_trait_code_run h l n Hl), Hitems, Hlist.
    reflexivity.
  - intros key from Hin. rewrite (dict_get_array_kwargs n).
    simpl in Hin.
    destruct Hin as [[= <- <-]|[[= <- <-]|[[= <- <-]|[]]]]; reflexivity.
  - intros key Hnot. rewrite (dict_get_array_kwargs n).
    destruct (String.eqb_spec key "minlen") as [->|_];
      [exfalso; apply Hnot; simpl; tauto|].
    destruct (String.eqb_spec key "maxlen") as [->|_];
      [exfalso; apply Hnot; simpl; tauto|].
    destruct (String.eqb_spec key "uniqueItems") as [->|_];
      [exfalso; apply Hnot; simpl; tauto|].
    reflexivity.
Qed.

(** ** [RefTraitCode] *)

(** C2. For a node with a [$ref] key, [RefTraitCode(schema).check()] is
    true. When the resolved node is an object class, [trait_code] returns
    a [jst.JSONInstance] call on its class name. Otherwise it returns the
    trait code of a copy of the resolved node whose metadata is that of
    the referencing node. *)
Theorem reference_instance_or_alias {api : SchemaAPI} (h h1 : store)
  (l ref : loc) (n r : JSONSchema) (target : pyval) (kwargs : dict) :
  h !! l = Some n ->
  dict_get (subtree n) "$ref" = Some target ->
  get_reference l target h = (Ok ref, h1) ->
  h1 !! ref = Some r ->
  let run := (self <- TraitCodeExtractor.init l PNone ;;
              RefTraitCode.trait_code self kwargs) h in
  (self <- TraitCodeExtractor.init l PNone ;;
   RefTraitCode.check self) h = (Ok true, h)
  /\ (is_object r = true ->
      run = (Ok (construct_function_call "jst.JSONInstance"
                   [PVariable (PStr (classname r))] kwargs), h1))
  /\ (is_object r = false ->
      forall ref' h2,
        copy ref h1 = (Ok ref', h2) ->
        h2 !! ref' = Some r ->
        h2 !! l = Some n ->
        run = trait_code ref'
                (<[ref' := mkJSONSchema (subtree r) (root r) (path r)
                             (metadata n)]> h2)).
Proof.
  intros Hl Href Hget Hr run.
  assert (Hinit : TraitCodeExtractor.init l PNone h
                  = (Ok (mkExtractor l (node_type n)), h)).
  { rewrite (init_run h l n Hl). reflexivity. }
  assert (Hrun : run
                 = (r <- get_node ref ;;
                    if is_object r then
                      ret (construct_function_call "jst.JSONInstance"
                             [PVariable (PStr (classname r))] kwargs)
                    else
                      ref <- copy ref ;;
                      s <- get_node l ;;
                      _ <- set_metadata ref (metadata s) ;;
                      trait_code ref) h1).
  { unfold run. rewrite (bind_ok _ _ _ _ _ Hinit).
    unfold RefTraitCode.trait_code. cbn [schema].
    erewrite bind_ok; [|rewrite (node_getitem_run h l n Hl), Href;
                        reflexivity].
    erewrite bind_ok; [|exact Hget]. reflexivity. }
  split; [|split].
  - rewrite (bind_ok _ _ _ _ _ Hinit). unfold RefTraitCode.check.
    cbn [schema]. rewrite (node_contains_run h l n Hl), dict_contains_get, Href.
    reflexivity.
  - intros Hobj. rewrite Hrun.
    erewrite bind_ok; [|apply (get_node_run h1 ref r Hr)].
    rewrite Hobj. reflexivity.
  - intros Hobj ref' h2 Hcopy Hr' Hl2. rewrite Hrun.
    erewrite bind_ok; [|apply (get_node_run h1 ref r Hr)].
    rewrite Hobj.
    erewrite bind_ok; [|exact Hcopy].
    erewrite bind_ok; [|apply (get_node_run h2 l n Hl2)].
    erewrite bind_ok; [reflexivity|].
    unfold set_metadata. rewrite Hr'. reflexivity.
Qed.

(** ** Extractors and the store *)

Lemma extends_refl (h : store) : extends h h.
Proof. intros l n H. exact H. Qed.

Lemma extends_trans (h1 h2 h3 : store) :
  extends h1 h2 -> extends h2 h3 -> extends h1 h3.
Proof. intros H12 H23 l n H. apply H23, H12, H. Qed.

Lemma preserves_ret {A : Type} (a : A) : preserves (ret a).
Proof. intros h r h' [= _ <-]. apply extends_refl. Qed.

Lemma preserves_raise {A : Type} (e : exn) : preserves (raise (A := A) e).
Proof. intros h r h' [= _ <-]. apply extends_refl. Qed.

Lemma preserves_lift {A : Type} (x : result A) : preserves (lift x).
Proof. intros h r h' [= _ <-]. apply extends_refl. Qed.

Lemma preserves_get_node (l : loc) : preserves (get_node l).
Proof.
  intros h r h'. unfold get_node.
  destruct (h !! l); intros [= _ <-]; apply extends_refl.
Qed.

Lemma preserves_bind {A B : Type} (m : M A) (k : A -> M B) :
  preserves m -> (forall a, preserves (k a)) -> preserves (bind m k).
Proof.
  intros Hm Hk h r h'. unfold bind.
  destruct (m h) as [[a|e] h1] eqn:Hrun.
  - intros Hrun'. eapply extends_trans; [eapply Hm, Hrun|eapply Hk, Hrun'].
  - intros [= _ <-]. eapply Hm, Hrun.
Qed.

Lemma preserves_mapM {A B : Type} (f : A -> M B) (xs : list A) :
  (forall x, preserves (f x)) -> preserves (mapM f xs).
Proof.
  intros Hf. induction xs as [|x xs IH]; simpl.
  - apply preserves_ret.
  - apply preserves_bind; [apply Hf|]. intros y.
    apply preserves_bind; [exact IH|]. intros ys. apply preserves_ret.
Qed.

Lemma reads_preserves {A : Type} (m : loc -> M A) (l : loc) :
  reads_node m -> preserves (m l).
Proof.
  intros [Hsnd _] h r h' Hrun.
  specialize (Hsnd l h). rewrite Hrun in Hsnd. simpl in Hsnd. subst h'.
  apply extends_refl.
Qed.

Lemma reads_same {A : Type} (m : loc -> M A) (h h' : store) (l l' : loc) :
  reads_node m -> same_node h l h' l' -> fst (m l h) = fst (m l' h').
Proof.
  intros [_ Hfst] (n & Hn & Hn'). apply Hfst. congruence.
Qed.

Lemma reads_const {A : Type} (m : M A) :
  (forall h, m h = (fst (m h), h)) ->
  (forall h h', fst (m h) = fst (m h')) ->
  reads_node (fun _ => m).
Proof.
  intros Hsnd Hfst. split.
  - intros _ h. rewrite Hsnd. reflexivity.
  - intros _ h _ h' _. apply Hfst.
Qed.

Lemma reads_node_ext {A : Type} (m m' : loc -> M A) :
  (forall l h, m' l h = m l h) -> reads_node m -> reads_node m'.
Proof.
  intros Hext [Hsnd Hfst]. split.
  - intros l h. rewrite Hext. apply Hsnd.
  - intros l h l' h' Heq. rewrite !Hext. apply Hfst, Heq.
Qed.

Lemma reads_ret {A : Type} (a : A) : reads_node (fun _ => ret a).
Proof. apply reads_const; reflexivity. Qed.

Lemma reads_raise {A : Type} (e : exn) :
  reads_node (fun _ => raise (A := A) e).
Proof. apply reads_const; reflexivity. Qed.

Lemma reads_lift {A : Type} (x : result A) : reads_node (fun _ => lift x).
Proof. apply reads_const; reflexivity. Qed.

Lemma reads_get_node : reads_node get_node.
Proof.
  split.
  - intros l h. unfold get_node. destruct (h !! l); reflexivity.
  - intros l h l' h' Heq. unfold get_node. rewrite Heq.
    destruct (h' !! l'); reflexivity.
Qed.

Lemma reads_bind {A B : Type} (m : loc -> M A) (k : A -> loc -> M B) :
  reads_node m -> (forall a, reads_node (k a)) ->
  reads_node (fun l => bind (m l) (fun a => k a l)).
Proof.
  intros [Hsnd Hfst] Hk. split.
  - intros l h. unfold bind. specialize (Hsnd l h).
    destruct (m l h) as [[a|e] h1]; simpl in Hsnd; subst h1.
    + apply Hk.
    + reflexivity.
  - intros l h l' h' Heq. unfold bind.
    pose proof (Hsnd l h) as Hs. pose proof (Hsnd l' h') as Hs'.
    specialize (Hfst l h l' h' Heq).
    destruct (m l h) as [[a|e] h1], (m l' h') as [[a'|e'] h1'];
      simpl in Hs, Hs', Hfst; subst h1 h1'; try discriminate.
    + injection Hfst as <-. apply Hk, Heq.
    + injection Hfst as <-. reflexivity.
Qed.

Lemma reads_mapM {A B : Type} (f : A -> loc -> M B) (xs : list A) :
  (forall x, reads_node (f x)) ->
  reads_node (fun l => mapM (fun x => f x l) xs).
Proof.
  intros Hf. induction xs as [|x xs IH]; simpl.
  - apply reads_ret.
  - apply (reads_bind (f x) (fun y l => ys <- mapM (fun x => f x l) xs ;;
                                        ret (y :: ys))); [apply Hf|].
    intros y.
    apply (reads_bind (fun l => mapM (fun x => f x l) xs)
             (fun ys _ => ret (y :: ys))); [exact IH|].
    intros ys. apply reads_ret.
Qed.

(** One step of a read-only computation. *)
Ltac reads_step :=
  first
    [ apply reads_ret
    | apply reads_raise
    | apply reads_lift
    | apply reads_get_node
    | refine (reads_bind _ _ _ _); [|intros ?]
    | refine (reads_mapM _ _ _); intros ?
    | match goal with
      | |- reads_node (fun _ => if ?b then _ else _) => destruct b
      | |- reads_node (fun _ => match ?x with _ => _ end) => destruct x
      end ].

Section ReadOnly.

Context {api : SchemaAPI}.

Lemma reads_node_contains (key : string) :
  reads_node (fun l => node_contains l key).
Proof. unfold node_contains. repeat reads_step. Qed.

Lemma reads_node_getitem (key : string) :
  reads_node (fun l => node_getitem l key).
Proof. unfold node_getitem. repeat reads_step. Qed.

Lemma reads_present_items (keys : list string) (acc : dict) :
  reads_node (fun l => present_items l keys acc).
Proof.
  revert acc. induction keys as [|key keys IH]; intros acc; simpl.
  - apply reads_ret.
  - refine (reads_bind _ _ _ _); [apply reads_node_contains|].
    intros [|]; [|apply IH].
    refine (reads_bind _ _ _ _); [apply reads_node_getitem|].
    intros v. apply IH.
Qed.

Lemma reads_forward_key (key name : string) (kwargs : dict) :
  reads_node (fun l => forward_key l key name kwargs).
Proof.
  unfold forward_key.
  refine (reads_bind _ _ _ _); [apply reads_node_contains|].
  intros [|]; [|apply reads_ret].
  refine (reads_bind _ _ _ _); [apply reads_node_getitem|].
  intros v. apply reads_ret.
Qed.

Lemma reads_simple_check (typ : pyval) :
  reads_node (fun l => SimpleTraitCode.check (mkExtractor l typ)).
Proof.
  unfold SimpleTraitCode.check. cbn [schema typecode]. repeat reads_step.
Qed.

Lemma reads_simple_trait_code (typ : pyval) (kwargs : dict) :
  reads_node (fun l => SimpleTraitCode.trait_code (mkExtractor l typ) kwargs).
Proof.
  unfold SimpleTraitCode.trait_code. cbn [schema typecode].
  do 2 (refine (reads_bind _ _ _ _); [apply reads_lift|intros ?]).
  refine (reads_bind _ _ _ _); [apply reads_present_items|intros ?].
  apply reads_ret.
Qed.

(** Constructing an extractor and then using it. *)
Lemma init_bind {B : Type} (l : loc) (typ : pyval)
  (k : TraitCodeExtractor -> M B) (h : store) :
  (self <- TraitCodeExtractor.init l typ ;; k self) h
  = if py_truthy typ then k (mkExtractor l typ) h
    else (n <- get_node l ;; k (mkExtractor l (node_type n))) h.
Proof.
  unfold TraitCodeExtractor.init. destruct (py_truthy typ).
  - reflexivity.
  - unfold bind. destruct (get_node l h) as [[n|e] h1]; reflexivity.
Qed.

Lemma reads_init_bind {B : Type} (typ : pyval)
  (k : TraitCodeExtractor -> M B) :
  (forall typ', reads_node (fun l => k (mkExtractor l typ'))) ->
  reads_node (fun l => self <- TraitCodeExtractor.init l typ ;; k self).
Proof.
  intros Hk.
  apply (reads_node_ext
           (fun l => if py_truthy typ then k (mkExtractor l typ)
                     else n <- get_node l ;;
                          k (mkExtractor l (node_type n)))).
  - intros l h. rewrite init_bind. destruct (py_truthy typ); reflexivity.
  - destruct (py_truthy typ); [apply Hk|].
    refine (reads_bind _ _ _ _); [apply reads_get_node|].
    intros n. apply Hk.
Qed.

Lemma reads_compound_check (typ : pyval) :
  reads_node (fun l => CompoundTraitCode.check (mkExtractor l typ)).
Proof.
  unfold CompoundTraitCode.check. cbn [schema typecode]. repeat reads_step.
Qed.

Lemma reads_compound_trait_code (typ : pyval) (kwargs : dict) :
  reads_node
    (fun l => CompoundTraitCode.trait_code (mkExtractor l typ) kwargs).
Proof.
  unfold CompoundTraitCode.trait_code. cbn [schema typecode].
  refine (reads_bind _ _ _ _); [apply reads_lift|intros has_null].
  refine (reads_bind _ _ _ _); [apply reads_lift|intros typs].
  destruct (List.filter _ typs) as [|t [|t' rest]].
  - refine (reads_bind _ _ _ _); [|intros ?; apply reads_ret].
    refine (reads_mapM _ _ _). intros x.
    apply reads_init_bind. intros typ'. apply reads_simple_trait_code.
  - apply reads_init_bind. intros typ'. apply reads_simple_trait_code.
  - refine (reads_bind _ _ _ _); [|intros ?; apply reads_ret].
    refine (reads_mapM _ _ _). intros x.
    apply reads_init_bind. intros typ'. apply reads_simple_trait_code.
Qed.

Lemma reads_enum_trait_code (typ : pyval) (kwargs : dict) :
  reads_node (fun l => EnumTraitCode.trait_code (mkExtractor l typ) kwargs).
Proof.
  unfold EnumTraitCode.trait_code. cbn [schema].
  refine (reads_bind _ _ _ _); [apply reads_node_getitem|].
  intros v. apply reads_ret.
Qed.

Lemma reads_array_check (typ : pyval) :
  reads_node (fun l => ArrayTraitCode.check (mkExtractor l typ)).
Proof.
  unfold ArrayTraitCode.check. cbn [schema typecode]. repeat reads_step.
Qed.

End ReadOnly.

Lemma reads_node_function {A : Type} (m : loc -> M A) :
  reads_node m -> node_function m.
Proof.
  intros Hm. split.
  - intros l. apply reads_preserves, Hm.
  - intros h l h' l'. apply reads_same, Hm.
Qed.

Lemma same_node_extends (h h1 h' h1' : store) (l l' : loc) :
  same_node h l h' l' -> extends h h1 -> extends h' h1' ->
  same_node h1 l h1' l'.
Proof.
  intros (n & Hn & Hn') He He'. exists n. split; [apply He|apply He']; auto.
Qed.

Section Effects.

Context {api : SchemaAPI}.
Hypothesis laws : SchemaAPI_laws api.

Lemma child_code_preserves {A : Type} (g : string -> A) (v : pyval)
  (l : loc) : preserves (child_code g v l).
Proof using laws.
  unfold child_code.
  apply preserves_bind; [apply (make_child_preserves api laws)|].
  intros child.
  apply preserves_bind; [apply (trait_code_preserves api laws)|].
  intros code. apply preserves_ret.
Qed.

Lemma child_code_same {A : Type} (g : string -> A) (v : pyval)
  (h h' : store) (l l' : loc) :
  same_node h l h' l' ->
  fst (child_code g v l h) = fst (child_code g v l' h').
Proof using laws.
  intros Hsame. unfold child_code, bind.
  pose proof (make_child_same api laws v h l h' l' Hsame) as Hchild.
  unfold same_outcome in Hchild.
  destruct (make_child l v h) as [[c|e] h1],
           (make_child l' v h') as [[c'|e'] h1']; try contradiction.
  - pose proof (trait_code_same api laws h1 c h1' c' Hchild) as Hcode.
    destruct (trait_code c h1) as [[code|e] h2],
             (trait_code c' h1') as [[code'|e'] h2'];
      simpl in Hcode; try discriminate.
    + injection Hcode as <-. reflexivity.
    + injection Hcode as <-. reflexivity.
  - simpl. rewrite Hchild. reflexivity.
Qed.

Lemma child_code_function {A : Type} (g : string -> A) (v : pyval) :
  node_function (child_code g v).
Proof using laws.
  split.
  - apply child_code_preserves.
  - intros h l h' l'. apply child_code_same.
Qed.

Lemma node_function_bind {A B : Type} (m : loc -> M A)
  (k : A -> loc -> M B) :
  node_function m -> (forall a, node_function (k a)) ->
  node_function (fun l => bind (m l) (fun a => k a l)).
Proof.
  intros [Hpres Hsame] Hk. split.
  - intros l. apply preserves_bind; [apply Hpres|].
    intros a. apply Hk.
  - intros h l h' l' Hnode. unfold bind.
    pose proof (Hsame h l h' l' Hnode) as Hfst.
    pose proof (Hpres l h) as Hext. pose proof (Hpres l' h') as Hext'.
    destruct (m l h) as [[a|e] h1], (m l' h') as [[a'|e'] h1'];
      simpl in Hfst; try discriminate.
    + injection Hfst as <-. apply (Hk a).
      eapply same_node_extends; [exact Hnode|eapply Hext|eapply Hext'];
        reflexivity.
    + injection Hfst as <-. reflexivity.
Qed.

Lemma node_function_mapM {A B : Type} (f : A -> loc -> M B)
  (xs : list A) :
  (forall x, node_function (f x)) ->
  node_function (fun l => mapM (fun x => f x l) xs).
Proof.
  intros Hf. induction xs as [|x xs IH]; simpl.
  - apply reads_node_function, reads_ret.
  - apply (node_function_bind (f x)
             (fun y l => ys <- mapM (fun x => f x l) xs ;; ret (y :: ys)));
      [apply Hf|].
    intros y.
    apply (node_function_bind (fun l => mapM (fun x => f x l) xs)
             (fun ys _ => ret (y :: ys))); [exact IH|].
    intros ys. apply reads_node_function, reads_ret.
Qed.

Lemma array_trait_code_function (typ : pyval) (kwargs : dict) :
  node_function
    (fun l => ArrayTraitCode.trait_code (mkExtractor l typ) kwargs).
Proof using laws.
  unfold ArrayTraitCode.trait_code. cbn [schema].
  refine (node_function_bind _ _ _ _);
    [apply reads_node_function, reads_node_getitem|intros items].
  do 3 (refine (node_function_bind _ _ _ _);
        [apply reads_node_function, reads_forward_key|intros ?]).
  destruct (py_is_list items).
  - apply reads_node_function, reads_raise.
  - apply (child_code_function
             (fun itemtype =>
                construct_function_call "jst.JSONArray"
                  [PVariable (PStr itemtype)] _)).
Qed.

Lemma not_trait_code_function (typ : pyval) (kwargs : dict) :
  node_function
    (fun l => NotTraitCode.trait_code (mkExtractor l typ) kwargs).
Proof using laws.
  unfold NotTraitCode.trait_code. cbn [schema].
  refine (node_function_bind _ _ _ _);
    [apply reads_node_function, reads_node_getitem|intros sub].
  apply (child_code_function
           (fun not_this =>
              construct_function_call "jst.JSONNot"
                [PVariable (PStr not_this)] _)).
Qed.

Lemma children_of_function (key : string) :
  node_function (fun l => children_of l key).
Proof using laws.
  unfold children_of.
  refine (node_function_bind _ _ _ _);
    [apply reads_node_function, reads_node_getitem|intros subs].
  refine (node_function_bind _ _ _ _);
    [apply reads_node_function, reads_lift|intros subs'].
  refine (node_function_mapM _ _ _). intros sub.
  apply (child_code_function (fun code => PVariable (PStr code))).
Qed.

Lemma anyof_trait_code_function (typ : pyval) (kwargs : dict) :
  node_function
    (fun l => AnyOfTraitCode.trait_code (mkExtractor l typ) kwargs).
Proof using laws.
  unfold AnyOfTraitCode.trait_code. cbn [schema].
  refine (node_function_bind _ _ _ _); [apply children_of_function|].
  intros children. apply reads_node_function, reads_ret.
Qed.

Lemma oneof_trait_code_function (typ : pyval) (kwargs : dict) :
  node_function
    (fun l => OneOfTraitCode.trait_code (mkExtractor l typ) kwargs).
Proof using laws.
  unfold OneOfTraitCode.trait_code. cbn [schema].
  refine (node_function_bind _ _ _ _); [apply children_of_function|].
  intros children. apply reads_node_function, reads_ret.
Qed.

Lemma allof_trait_code_function (typ : pyval) (kwargs : dict) :
  node_function
    (fun l => AllOfTraitCode.trait_code (mkExtractor l typ) kwargs).
Proof using laws.
  unfold AllOfTraitCode.trait_code. cbn [schema].
  refine (node_function_bind _ _ _ _); [apply children_of_function|].
  intros children. apply reads_node_function, reads_ret.
Qed.

(** Once the reference is resolved, [RefTraitCode.trait_code] writes
    only to the copy it makes: everything that exists after the
    resolution, the resolved node included, stays as it is. *)
Lemma ref_after_resolve (self : TraitCodeExtractor) (kwargs : dict)
  (h h1 h' : store) (target : pyval) (ref : loc) (res : result string) :
  node_getitem (schema self) "$ref" h = (Ok target, h) ->
  get_reference (schema self) target h = (Ok ref, h1) ->
  RefTraitCode.trait_code self kwargs h = (res, h') ->
  extends h1 h'.
Proof using laws.
  intros Hitem Hget. unfold RefTraitCode.trait_code.
  rewrite (bind_ok _ _ _ _ _ Hitem), (bind_ok _ _ _ _ _ Hget).
  unfold bind at 1. unfold get_node at 1.
  destruct (h1 !! ref) as [r|] eqn:Hr;
    [|intros [= _ <-]; apply extends_refl].
  destruct (is_object r); [intros [= _ <-]; apply extends_refl|].
  destruct (copy_new api laws ref h1 r Hr) as (c & h2 & Hcopy & Hnew & Hc).
  pose proof (copy_preserves api laws ref h1 _ _ Hcopy) as Hext.
  rewrite (bind_ok _ _ _ _ _ Hcopy).
  unfold bind at 1. unfold get_node at 1.
  destruct (h2 !! schema self) as [s|]; [|intros [= _ <-]; exact Hext].
  unfold bind at 1. unfold set_metadata at 1. rewrite Hc.
  intros Hcode.
  apply (trait_code_preserves api laws) in Hcode.
  eapply extends_trans; [|exact Hcode].
  intros l0 n0 Hl0. rewrite lookup_insert_ne; [apply Hext, Hl0|].
  intros <-. congruence.
Qed.

Lemma ref_trait_code_preserves (self : TraitCodeExtractor)
  (kwargs : dict) :
  preserves (RefTraitCode.trait_code self kwargs).
Proof using laws.
  intros h res h' Hrun.
  pose proof (proj1 (reads_node_getitem "$ref") (schema self) h) as Hsnd.
  destruct (node_getitem (schema self) "$ref" h) as [[target|e] h0]
    eqn:Hitem; simpl in Hsnd; subst h0.
  - destruct (get_reference (schema self) target h) as [[ref|e] h1]
      eqn:Hget.
    + eapply extends_trans;
        [eapply (get_reference_preserves api laws), Hget|].
      eapply ref_after_resolve; eassumption.
    + unfold RefTraitCode.trait_code in Hrun.
      rewrite (bind_ok _ _ _ _ _ Hitem), (bind_raise _ _ _ _ _ Hget) in Hrun.
      injection Hrun as _ <-.
      eapply (get_reference_preserves api laws), Hget.
  - unfold RefTraitCode.trait_code in Hrun.
    rewrite (bind_raise _ _ _ _ _ Hitem) in Hrun.
    injection Hrun as _ <-. apply extends_refl.
Qed.

Lemma ref_trait_code_same (typ : pyval) (kwargs : dict) (h h' : store)
  (l l' : loc) :
  same_node h l h' l' ->
  fst (RefTraitCode.trait_code (mkExtractor l typ) kwargs h)
  = fst (RefTraitCode.trait_code (mkExtractor l' typ) kwargs h').
Proof using laws.
  intros Hsame. pose proof Hsame as (n & Hn & Hn').
  unfold RefTraitCode.trait_code. cbn [schema].
  pose proof (node_getitem_run h l n Hn "$ref") as Hitem.
  pose proof (node_getitem_run h' l' n Hn' "$ref") as Hitem'.
  destruct (dict_get (subtree n) "$ref") as [target|].
  2:{ rewrite (bind_raise _ _ _ _ _ Hitem), (bind_raise _ _ _ _ _ Hitem').
      reflexivity. }
  rewrite (bind_ok _ _ _ _ _ Hitem), (bind_ok _ _ _ _ _ Hitem').
  pose proof (get_reference_same api laws target h l h' l' Hsame) as Hres.
  unfold same_outcome in Hres.
  destruct (get_reference l target h) as [[ref|e] h1] eqn:Hget,
           (get_reference l' target h') as [[ref'|e'] h1'] eqn:Hget';
    try contradiction.
  2:{ rewrite (bind_raise _ _ _ _ _ Hget), (bind_raise _ _ _ _ _ Hget').
      simpl. rewrite Hres. reflexivity. }
  rewrite (bind_ok _ _ _ _ _ Hget), (bind_ok _ _ _ _ _ Hget').
  destruct Hres as (r & Hr & Hr').
  rewrite (bind_ok _ _ _ _ _ (get_node_run h1 ref r Hr)).
  rewrite (bind_ok _ _ _ _ _ (get_node_run h1' ref' r Hr')).
  destruct (is_object r); [reflexivity|].
  destruct (copy_new api laws ref h1 r Hr) as (c & h2 & Hcopy & _ & Hc).
  destruct (copy_new api laws ref' h1' r Hr')
    as (c' & h2' & Hcopy' & _ & Hc').
  rewrite (bind_ok _ _ _ _ _ Hcopy), (bind_ok _ _ _ _ _ Hcopy').
  assert (Hl2 : h2 !! l = Some n).
  { eapply (copy_preserves api laws), (get_reference_preserves api laws);
      eassumption. }
  assert (Hl2' : h2' !! l' = Some n).
  { eapply (copy_preserves api laws), (get_reference_preserves api laws);
      eassumption. }
  rewrite (bind_ok _ _ _ _ _ (get_node_run h2 l n Hl2)).
  rewrite (bind_ok _ _ _ _ _ (get_node_run h2' l' n Hl2')).
  unfold bind, set_metadata. rewrite Hc, Hc'.
  apply (trait_code_same api laws).
  eexists. rewrite !lookup_insert_eq. split; reflexivity.
Qed.

Lemma ref_trait_code_function (typ : pyval) (kwargs : dict) :
  node_function
    (fun l => RefTraitCode.trait_code (mkExtractor l typ) kwargs).
Proof using laws.
  split.
  - intros l. apply ref_trait_code_preserves.
  - intros h l h' l'. apply ref_trait_code_same.
Qed.

Lemma node_function_ext {A : Type} (m m' : loc -> M A) :
  (forall l h, m' l h = m l h) -> node_function m -> node_function m'.
Proof.
  intros Hext [Hpres Hsame]. split.
  - intros l h r h' Hrun. rewrite Hext in Hrun. eapply Hpres, Hrun.
  - intros h l h' l' Hnode. rewrite !Hext. apply Hsame, Hnode.
Qed.

Lemma node_function_init_bind {B : Type} (typ : pyval)
  (k : TraitCodeExtractor -> loc -> M B) :
  (forall typ', node_function (fun l => k (mkExtractor l typ') l)) ->
  node_function
    (fun l => self <- TraitCodeExtractor.init l typ ;; k self l).
Proof.
  intros Hk.
  apply (node_function_ext
           (fun l => if py_truthy typ then k (mkExtractor l typ) l
                     else n <- get_node l ;;
                          k (mkExtractor l (node_type n)) l)).
  - intros l h. rewrite init_bind. destruct (py_truthy typ); reflexivity.
  - destruct (py_truthy typ); [apply Hk|].
    refine (node_function_bind _ _ _ _);
      [apply reads_node_function, reads_get_node|].
    intros n. apply Hk.
Qed.

(** Every extractor class, the abstract base class included: [check]
    and [trait_code] change no existing object and are functions of the
    attributes of the node. *)
Lemma extractor_functions (check : TraitCodeExtractor -> M bool)
  (code : TraitCodeExtractor -> dict -> M string) :
  In (check, code)
     ((TraitCodeExtractor.check, TraitCodeExtractor.trait_code)
      :: trait_extractors) ->
  (forall typ, node_function (fun l => check (mkExtractor l typ)))
  /\ (forall typ kwargs,
        node_function (fun l => code (mkExtractor l typ) kwargs)).
Proof using laws.
  simpl.
  intros [[= <- <-]|[[= <- <-]|[[= <- <-]|[[= <- <-]|[[= <- <-]|
         [[= <- <-]|[[= <- <-]|[[= <- <-]|[[= <- <-]|[[= <- <-]|
         [[= <- <-]|[]]]]]]]]]]]]; (split; [intros typ|intros typ kwargs]).
  - apply reads_node_function, reads_raise.
  - apply reads_node_function, reads_raise.
  - apply reads_node_function, reads_node_contains.
  - apply ref_trait_code_function.
  - apply reads_node_function, reads_node_contains.
  - apply reads_node_function, reads_enum_trait_code.
  - apply reads_node_function, reads_simple_check.
  - apply reads_node_function, reads_simple_trait_code.
  - apply reads_node_function, reads_compound_check.
  - apply reads_node_function, reads_compound_trait_code.
  - apply reads_node_function, reads_array_check.
  - apply array_trait_code_function.
  - apply reads_node_function, reads_node_contains.
  - apply anyof_trait_code_function.
  - apply reads_node_function, reads_node_contains.
  - apply oneof_trait_code_function.
  - apply reads_node_function, reads_node_contains.
  - apply allof_trait_code_function.
  - apply reads_node_function, reads_node_contains.
  - apply not_trait_code_function.
  - unfold ObjectTraitCode.check. cbn [typecode].
    apply reads_node_function, reads_ret.
  - apply reads_node_function, reads_raise.
Qed.

Lemma first_match_function (extractors : list extractor_class)
  (kwargs : dict) :
  (forall check code, In (check, code) extractors ->
     (forall typ, node_function (fun l => check (mkExtractor l typ)))
     /\ (forall typ kwargs,
           node_function (fun l => code (mkExtractor l typ) kwargs))) ->
  node_function (fun l => first_match extractors l kwargs).
Proof.
  induction extractors as [|[check code] rest IH]; intros Hall; simpl.
  - apply reads_node_function, reads_raise.
  - destruct (Hall check code (or_introl eq_refl)) as [Hcheck Hcode].
    apply (node_function_init_bind PNone
             (fun self l => b <- check self ;;
                            if b then code self kwargs
                            else first_match rest l kwargs)).
    intros typ.
    refine (node_function_bind _ _ _ _); [apply Hcheck|].
    intros [|]; [apply Hcode|].
    apply IH. intros check' code' Hin. apply Hall. right. exact Hin.
Qed.

Lemma run_chain_function : node_function (run_chain api).
Proof using laws.
  unfold run_chain.
  refine (node_function_bind _ _ _ _);
    [apply reads_node_function, reads_get_node|].
  intros n. apply first_match_function.
  intros check code Hin. apply extractor_functions. right. exact Hin.
Qed.

End Effects.

(** C8. Under the laws of the node class, for every extractor class:
    the constructor, [check] and [trait_code] leave every existing node
    object as it is,
    hence each node's underlying subtree and document root; their outcome
    depends only on the attributes of the node, so that running
    [trait_code] again returns the same string or raises the same
    exception; and [RefTraitCode.trait_code] attaches the metadata to a
    copy: the node returned by the resolver is, like every object
    existing at that point, unchanged at the end. *)
Theorem extractors_do_not_mutate {api : SchemaAPI}
  (laws : SchemaAPI_laws api) :
  (forall l typ, preserves (TraitCodeExtractor.init l typ))
  /\ (forall check code,
       In (check, code)
          ((TraitCodeExtractor.check, TraitCodeExtractor.trait_code)
           :: trait_extractors) ->
       (forall self kwargs,
          preserves (check self) /\ preserves (code self kwargs))
       /\ (forall self kwargs h n res h',
             h !! schema self = Some n ->
             code self kwargs h = (res, h') ->
             exists n', h' !! schema self = Some n'
                        /\ subtree n' = subtree n /\ root n' = root n)
       /\ (forall typ kwargs h l h' l',
             same_node h l h' l' ->
             fst (check (mkExtractor l typ) h)
             = fst (check (mkExtractor l' typ) h')
             /\ fst (code (mkExtractor l typ) kwargs h)
                = fst (code (mkExtractor l' typ) kwargs h'))
       /\ (forall self kwargs h n res h',
             h !! schema self = Some n ->
             code self kwargs h = (res, h') ->
             fst (code self kwargs h') = res))
  /\ (forall self kwargs h target ref h1 res h',
        node_getitem (schema self) "$ref" h = (Ok target, h) ->
        get_reference (schema self) target h = (Ok ref, h1) ->
        RefTraitCode.trait_code self kwargs h = (res, h') ->
        extends h1 h' /\ h' !! ref = h1 !! ref).
Proof.
  split; [|split].
  - intros l typ. unfold TraitCodeExtractor.init.
    destruct (py_truthy typ); [apply preserves_ret|].
    apply preserves_bind; [apply preserves_get_node|].
    intros n. apply preserves_ret.
  - intros check code Hin.
    destruct (extractor_functions laws check code Hin) as [Hcheck Hcode].
    split; [|split; [|split]].
    + intros [l typ] kwargs. split.
      * apply (proj1 (Hcheck typ) l).
      * apply (proj1 (Hcode typ kwargs) l).
    + intros [l typ] kwargs h n res h' Hn Hrun. exists n.
      split; [|split; reflexivity].
      eapply (proj1 (Hcode typ kwargs) l); [exact Hrun|exact Hn].
    + intros typ kwargs h l h' l' Hsame. split.
      * apply (proj2 (Hcheck typ)), Hsame.
      * apply (proj2 (Hcode typ kwargs)), Hsame.
    + intros [l typ] kwargs h n res h' Hn Hrun. cbn [schema] in Hn.
      assert (Hsame : same_node h' l h l).
      { exists n. split; [|exact Hn].
        eapply (proj1 (Hcode typ kwargs) l); [exact Hrun|exact Hn]. }
      rewrite (proj2 (Hcode typ kwargs) h' l h l Hsame), Hrun. reflexivity.
  - intros self kwargs h target ref h1 res h' Hitem Hget Hrun.
    pose proof (ref_after_resolve laws self kwargs h h1 h' target ref res
                  Hitem Hget Hrun) as Hext.
    split; [exact Hext|].
    destruct (h1 !! ref) as [r|] eqn:Hr; [apply Hext, Hr|].
    unfold RefTraitCode.trait_code in Hrun.
    rewrite (bind_ok _ _ _ _ _ Hitem), (bind_ok _ _ _ _ _ Hget) in Hrun.
    unfold bind, get_node in Hrun. rewrite Hr in Hrun.
    injection Hrun as _ <-. exact Hr.
Qed.

(** ** The reference environment satisfies the laws *)

Lemma alloc_new (x : JSONSchema) (h : store) :
  exists l, alloc x h = (Ok l, <[l := x]> h) /\ h !! l = None.
Proof.
  exists (fresh (dom h)). split; [reflexivity|].
  apply not_elem_of_dom, is_fresh.
Qed.

Lemma alloc_preserves (x : JSONSchema) : preserves (alloc x).
Proof.
  intros h r h' Hrun.
  destruct (alloc_new x h) as (c & Heq & Hnew).
  rewrite Heq in Hrun. injection Hrun as _ <-.
  intros l n Hl. rewrite lookup_insert_ne; [exact Hl|].
  intros <-. congruence.
Qed.

Lemma alloc_same (x : JSONSchema) (h h' : store) :
  same_outcome same_node (alloc x h) (alloc x h').
Proof.
  destruct (alloc_new x h) as (c & -> & _).
  destruct (alloc_new x h') as (c' & -> & _).
  exists x. rewrite !lookup_insert_eq. split; reflexivity.
Qed.

Lemma spec_get_reference_preserves (l : loc) (v : pyval) :
  preserves (spec_get_reference l v).
Proof.
  unfold spec_get_reference.
  apply preserves_bind; [apply preserves_get_node|]. intros n.
  apply preserves_bind; [apply preserves_lift|]. intros target.
  apply alloc_preserves.
Qed.

Lemma spec_make_child_preserves (l : loc) (v : pyval) :
  preserves (spec_make_child l v).
Proof.
  unfold spec_make_child.
  apply preserves_bind; [apply preserves_get_node|]. intros n.
  destruct v; try apply preserves_raise. apply alloc_preserves.
Qed.

Lemma spec_copy_preserves (l : loc) : preserves (spec_copy l).
Proof.
  unfold spec_copy.
  apply preserves_bind; [apply preserves_get_node|]. intros n.
  apply alloc_preserves.
Qed.

Lemma spec_copy_new (l : loc) (h : store) (n : JSONSchema) :
  h !! l = Some n ->
  exists l' h', spec_copy l h = (Ok l', h') /\ h !! l' = None
                /\ h' !! l' = Some n.
Proof.
  intros Hl. unfold spec_copy.
  rewrite (bind_ok _ _ _ _ _ (get_node_run h l n Hl)).
  destruct (alloc_new n h) as (c & Heq & Hnew).
  exists c, (<[c := n]> h). split; [exact Heq|]. split; [exact Hnew|].
  apply lookup_insert_eq.
Qed.

Lemma spec_get_reference_same (v : pyval) (h : store) (l : loc)
  (h' : store) (l' : loc) :
  same_node h l h' l' ->
  same_outcome same_node (spec_get_reference l v h)
    (spec_get_reference l' v h').
Proof.
  intros (n & Hn & Hn'). unfold spec_get_reference.
  rewrite (bind_ok _ _ _ _ _ (get_node_run h l n Hn)).
  rewrite (bind_ok _ _ _ _ _ (get_node_run h' l' n Hn')).
  unfold bind, lift. destruct (resolve n v) as [target|e].
  - apply alloc_same.
  - reflexivity.
Qed.

Lemma spec_make_child_same (v : pyval) (h : store) (l : loc)
  (h' : store) (l' : loc) :
  same_node h l h' l' ->
  same_outcome same_node (spec_make_child l v h) (spec_make_child l' v h').
Proof.
  intros (n & Hn & Hn'). unfold spec_make_child.
  rewrite (bind_ok _ _ _ _ _ (get_node_run h l n Hn)).
  rewrite (bind_ok _ _ _ _ _ (get_node_run h' l' n Hn')).
  destruct v; try reflexivity. apply alloc_same.
Qed.

Lemma spec_api_laws (code : loc -> M string) :
  node_function code -> SchemaAPI_laws (spec_api code).
Proof.
  intros [Hpres Hsame]. split; cbn.
  - apply spec_get_reference_preserves.
  - apply spec_make_child_preserves.
  - apply spec_copy_preserves.
  - exact Hpres.
  - apply spec_copy_new.
  - apply spec_get_reference_same.
  - apply spec_make_child_same.
  - exact Hsame.
Qed.

Lemma chain_function (fuel : nat) :
  node_function (JSONSchema_trait_code fuel).
Proof.
  induction fuel as [|fuel IH].
  - apply reads_node_function, reads_raise.
  - apply (run_chain_function (spec_api_laws _ IH)).
Qed.

Lemma chain_api_laws (fuel : nat) : SchemaAPI_laws (chain_api fuel).
Proof. apply spec_api_laws, chain_function. Qed.

(** ** The theorems at sample schemas *)

Section Samples.

#[local] Existing Instance sample_api.

Lemma simple_scalar_call_witness :
  exists cls kw,
    (self <- TraitCodeExtractor.init 0 PNone ;;
     SimpleTraitCode.trait_code self [("help", PStr "age")])
      (root_store integer_schema)
    = (Ok (render_call cls [] kw), root_store integer_schema)
    /\ cls = "jst.JSONInteger"
    /\ dict_get kw "minimum" = Some (PInt 0)
    /\ dict_get kw "multipleOf" = Some (PInt 5)
    /\ dict_get kw "maximum" = None
    /\ dict_get kw "help" = Some (PStr "age").
Proof.
  destruct (simple_scalar_call (root_store integer_schema) 0
              (root_node integer_schema) "integer" [("help", PStr "age")]
              ltac:(reflexivity) ltac:(reflexivity) ltac:(simpl; tauto))
    as (cls & kw & Hcls & _ & Hrun & Hfwd & Hrest).
  exists cls, kw. split; [exact Hrun|]. split.
  { simpl in Hcls.
    destruct Hcls as [[=]|[[=]|[[=]|[[= <-]|[[=]|[]]]]]]. reflexivity. }
  split; [apply Hfwd; [right; reflexivity|simpl; tauto|reflexivity]|].
  split; [apply Hfwd; [right; reflexivity|simpl; tauto|reflexivity]|].
  split; [apply (Hrest "maximum"); left; reflexivity|].
  apply (Hrest "help"). left. reflexivity.
Defined.

Lemma simple_no_constraints_witness :
  exists cls,
    (self <- TraitCodeExtractor.init 0 PNone ;;
     SimpleTraitCode.trait_code self [])
      (root_store string_schema)
    = (Ok (render_call cls [] []), root_store string_schema).
Proof.
  destruct (simple_no_constraints (root_store string_schema) 0
              (root_node string_schema) "string" []
              ltac:(reflexivity) ltac:(reflexivity) ltac:(simpl; tauto))
    as (cls & _ & Hrun).
  exists cls. exact Hrun.
Defined.

Lemma compound_with_null_witness :
  (self <- TraitCodeExtractor.init 0 PNone ;;
   CompoundTraitCode.trait_code self [])
    (root_store union_schema)
  = (Ok "jst.JSONUnion([jst.JSONString(), jst.JSONNumber(maximum=4)], allow_none=True)",
     root_store union_schema).
Proof.
  pose proof (compound_with_null (root_store union_schema) 0
                (root_node union_schema) ["string"; "null"; "number"] []
                ltac:(reflexivity) ltac:(reflexivity)
                ltac:(repeat constructor; simpl; tauto)
                ltac:(simpl; tauto)) as H.
  cbv zeta in H. destruct H as (_ & _ & _ & _ & Hunion).
  destruct (Hunion ltac:(discriminate)) as (codes & Hcodes & _ & Hrun).
  rewrite Hrun. clear Hrun Hunion.
  change (List.filter (fun t => negb (String.eqb t "null"))
            ["string"; "null"; "number"])
    with ["string"; "number"] in Hcodes.
  inversion Hcodes as [|t1 c1 r1 cs1 H1 Hcodes1]; subst.
  inversion Hcodes1 as [|t2 c2 r2 cs2 H2 Hcodes2]; subst.
  inversion Hcodes2; subst.
  vm_compute in H1. vm_compute in H2.
  injection H1 as <-. injection H2 as <-.
  vm_compute. reflexivity.
Defined.

Lemma compound_only_null_witness :
  (self <- TraitCodeExtractor.init 0 PNone ;;
   CompoundTraitCode.trait_code self [])
    (root_store null_schema)
  = (Ok (render_call "jst.JSONUnion" [PVariable (PStr "[]")]
           [("allow_none", PBool true)]), root_store null_schema).
Proof.
  pose proof (compound_only_null (root_store null_schema) 0
                (root_node null_schema) []
                ltac:(reflexivity) ltac:(left; reflexivity)) as H.
  cbv zeta in H. destruct H as (_ & Hnull & _).
  apply Hnull. reflexivity.
Defined.

Lemma anonymous_object_unsupported_witness :
  (self <- TraitCodeExtractor.init 0 PNone ;;
   ObjectTraitCode.trait_code self [("help", PStr "owner")])
    (root_store object_schema)
  = (Raise (NotImplementedError "Anonymous Objects"),
     root_store object_schema).
Proof.
  apply (anonymous_object_unsupported (root_store object_schema) 0
           (root_node object_schema)
           ltac:(reflexivity) ltac:(reflexivity)).
Defined.

Lemma array_tuple_items_unsupported_witness :
  (self <- TraitCodeExtractor.init 0 PNone ;;
   ArrayTraitCode.trait_code self [])
    (root_store tuple_schema)
  = (Raise (NotImplementedError "'items' keyword as list"),
     root_store tuple_schema).
Proof.
  pose proof (array_tuple_items_unsupported (root_store tuple_schema) 0
                (root_node tuple_schema) []
                ltac:(reflexivity) ltac:(reflexivity)) as H.
  cbv zeta in H. destruct H as (_ & Htuple & _).
  eapply Htuple. reflexivity.
Defined.

Lemma array_items_child_witness :
  exists kw,
    (self <- TraitCodeExtractor.init 0 PNone ;;
     ArrayTraitCode.trait_code self [])
      (root_store array_schema)
    = (child <- make_child 0 (PDict [("type", PStr "string")]) ;;
       itemtype <- trait_code child ;;
       ret (render_call "jst.JSONArray" [PVariable (PStr itemtype)] kw))
        (root_store array_schema)
    /\ dict_get kw "minlen" = Some (PInt 1)
    /\ dict_get kw "maxlen" = None
    /\ dict_get kw "uniqueItems" = Some (PBool true).
Proof.
  destruct (array_items_child (root_store array_schema) 0
              (root_node array_schema) (PDict [("type", PStr "string")]) []
              ltac:(reflexivity) ltac:(reflexivity) ltac:(reflexivity)
              ltac:(reflexivity)) as (kw & Hrun & Hfwd & _).
  exists kw. split; [exact Hrun|].
  split; [apply (Hfwd "minlen" "minItems"); simpl; tauto|].
  split; [apply (Hfwd "maxlen" "maxItems"); simpl; tauto|].
  apply (Hfwd "uniqueItems" "uniqueItems"); simpl; tauto.
Defined.

Lemma reference_instance_or_alias_witness :
  (exists h1,
     (self <- TraitCodeExtractor.init 0 PNone ;;
      RefTraitCode.trait_code self [])
       (root_store person_ref_schema)
     = (Ok (render_call "jst.JSONInstance" [PVariable (PStr "Person")] []),
        h1))
  /\ (exists h2 r,
        h2 !! 2 = Some r
        /\ metadata r = PDict [("description", PStr "shared")]
        /\ (self <- TraitCodeExtractor.init 0 PNone ;;
            RefTraitCode.trait_code self [])
             (root_store alias_schema)
           = trait_code 2
               (<[2 := mkJSONSchema (subtree r) (root r) (path r)
                         (PDict [("description", PStr "local")])]> h2)).
Proof.
  split.
  - set (h := root_store person_ref_schema).
    set (target := PStr "#/definitions/Person").
    assert (Hget : get_reference 0 target h
                   = (Ok 1, snd (get_reference 0 target h)))
      by (vm_compute; reflexivity).
    eassert (Hr : snd (get_reference 0 target h) !! 1 = Some _)
      by (vm_compute; reflexivity).
    pose proof (reference_instance_or_alias h _ 0 1
                  (root_node person_ref_schema) _ target []
                  ltac:(reflexivity) ltac:(reflexivity) Hget Hr) as H.
    cbv zeta in H. destruct H as (_ & Hobj & _).
    eexists. rewrite Hobj by reflexivity. reflexivity.
  - set (h := root_store alias_schema).
    set (target := PStr "#/shared/name").
    assert (Hget : get_reference 0 target h
                   = (Ok 1, snd (get_reference 0 target h)))
      by (vm_compute; reflexivity).
    set (h1 := snd (get_reference 0 target h)) in *.
    eassert (Hr : h1 !! 1 = Some _) by (vm_compute; reflexivity).
    assert (Hcopy : copy 1 h1 = (Ok 2, snd (copy 1 h1)))
      by (vm_compute; reflexivity).
    pose proof (reference_instance_or_alias h _ 0 1
                  (root_node alias_schema) _ target []
                  ltac:(reflexivity) ltac:(reflexivity) Hget Hr) as H.
    cbv zeta in H. destruct H as (_ & _ & Halias).
    specialize (Halias ltac:(reflexivity) 2 _ Hcopy
                  ltac:(vm_compute; reflexivity)
                  ltac:(vm_compute; reflexivity)).
    eexists _, _. split; [|split; [|exact Halias]].
    + vm_compute. reflexivity.
    + reflexivity.
Defined.

Lemma extractors_do_not_mutate_witness :
  SchemaAPI_laws sample_api
  /\ (forall kwargs res h',
        RefTraitCode.trait_code (mkExtractor 0 PNone) kwargs
          (root_store alias_schema) = (res, h') ->
        h' !! 0 = Some (root_node alias_schema)
        /\ fst (RefTraitCode.trait_code (mkExtractor 0 PNone) kwargs h')
           = res).
Proof.
  split; [apply chain_api_laws|].
  intros kwargs res h' Hrun.
  destruct (extractors_do_not_mutate (chain_api_laws 3)) as (_ & Hall & _).
  destruct (Hall RefTraitCode.check RefTraitCode.trait_code
              ltac:(simpl; tauto)) as (Hpres & _ & _ & Hagain).
  split.
  - eapply (proj2 (Hpres (mkExtractor 0 PNone) kwargs)); [exact Hrun|].
    reflexivity.
  - eapply (Hagain (mkExtractor 0 PNone)); [|exact Hrun]. reflexivity.
Defined.

(** The chain on the sample schemas. *)

Example chain_array :
  fst (trait_code 0 (root_store array_schema))
  = Ok "jst.JSONArray(jst.JSONString(), minlen=1, uniqueItems=True)".
Proof. vm_compute. reflexivity. Qed.

Example chain_union :
  fst (trait_code 0 (root_store union_schema))
  = Ok ("jst.JSONUnion([jst.JSONString(), jst.JSONNumber(maximum=4)], "
        +:+ "allow_none=True)").
Proof. vm_compute. reflexivity. Qed.

Example chain_nullable :
  fst (trait_code 0 (root_store nullable_schema))
  = Ok "jst.JSONInteger(allow_none=True, maximum=4)".
Proof. vm_compute. reflexivity. Qed.

Example chain_only_null :
  fst (trait_code 0 (root_store null_schema))
  = Ok "jst.JSONUnion([], allow_none=True)".
Proof. vm_compute. reflexivity. Qed.

Example chain_person_ref :
  fst (trait_code 0 (root_store person_ref_schema))
  = Ok "jst.JSONInstance(Person)".
Proof. vm_compute. reflexivity. Qed.

Example chain_alias :
  fst (trait_code 0 (root_store alias_schema))
  = Ok "jst.JSONString(help='local')".
Proof. vm_compute. reflexivity. Qed.

(** After the alias has been expanded, the resolved node still carries
    its own metadata; the copy carries that of the referencing node. *)
Example chain_alias_store :
  let h' := snd (trait_code 0 (root_store alias_schema)) in
  h' !! 0 = Some (root_node alias_schema)
  /\ metadata <$> h' !! 1 = Some (PDict [("description", PStr "shared")])
  /\ metadata <$> h' !! 2 = Some (PDict [("description", PStr "local")]).
Proof. vm_compute. repeat split; reflexivity. Qed.

Example chain_tuple :
  fst (trait_code 0 (root_store tuple_schema))
  = Raise (NotImplementedError "'items' keyword as list").
Proof. vm_compute. reflexivity. Qed.

Example chain_object :
  fst (trait_code 0 (root_store object_schema))
  = Raise (NotImplementedError "Anonymous Objects").
Proof. vm_compute. reflexivity. Qed.

End Samples.

(** ** Generated classes: serialization round trip *)

(** A value that satisfies a declaration is accepted by [from_value],
    and serializing the result gives the value back. *)
Lemma from_value_to_dict (classes : list generated_class) (v : pyval) :
  forall d,
    conforms classes v d = true ->
    exists o, from_value classes v d = Some o /\ to_dict o = v.
Proof.
  induction v as [| | | | |l IH|m IH|x IH] using pyval_nested_ind;
    intros d Hd.
  1-5,8: destruct d; simpl in Hd |- *;
    [rewrite Hd; eexists; split; reflexivity|discriminate..].
  - destruct d as [accepts|item|cls]; simpl in Hd |- *.
    + rewrite Hd. eexists. split; reflexivity.
    + assert (Heach : exists os,
                 (fix each (l : list pyval) : option (list obj) :=
                    match l with
                    | [] => Some []
                    | x :: l' =>
                        match from_value classes x item, each l' with
                        | Some o, Some os => Some (o :: os)
                        | _, _ => None
                        end
                    end) l = Some os
                 /\ map to_dict os = l).
      { induction l as [|x l IHl].
        - exists []. split; reflexivity.
        - apply andb_true_iff in Hd as [Hx Hl].
          apply List.Forall_cons_iff in IH as [IHx IHrest].
          destruct (IHx item Hx) as (o & Ho & Hback).
          destruct (IHl IHrest Hl) as (os & Hos & Hbacks).
          exists (o :: os). rewrite Ho, Hos. split; [reflexivity|].
          simpl. rewrite Hback, Hbacks. reflexivity. }
      destruct Heach as (os & -> & Hback).
      exists (OSeq os). split; [reflexivity|]. simpl. rewrite Hback.
      reflexivity.
    + discriminate.
  - destruct d as [accepts|item|cls]; simpl in Hd |- *.
    + rewrite Hd. eexists. split; reflexivity.
    + discriminate.
    + destruct (find_class classes cls) as [c|]; [|discriminate].
      apply andb_true_iff in Hd as [Hreq Hd]. rewrite Hreq.
      assert (Heach : exists os,
                 (fix each (m : list (string * pyval))
                    : option (list (string * obj)) :=
                    match m with
                    | [] => Some []
                    | (k, x) :: m' =>
                        match
                          match find_property c k with
                          | Some d' => from_value classes x d'
                          | None =>
                              if additional c then Some (OPlain x) else None
                          end, each m'
                        with
                        | Some o, Some os => Some ((k, o) :: os)
                        | _, _ => None
                        end
                    end) m = Some os
                 /\ map (fun kv => (fst kv, to_dict (snd kv))) os = m).
      { clear Hreq. induction m as [|[k x] m IHm].
        - exists []. split; reflexivity.
        - apply andb_true_iff in Hd as [Hx Hm].
          apply List.Forall_cons_iff in IH as [IHx IHrest].
          destruct (IHm IHrest Hm) as (os & Hos & Hbacks).
          rewrite Hos. simpl in IHx.
          destruct (find_property c k) as [d'|].
          + destruct (IHx d' Hx) as (o & -> & Hback).
            exists ((k, o) :: os). split; [reflexivity|].
            simpl. rewrite Hback, Hbacks. reflexivity.
          + rewrite Hx. exists ((k, OPlain x) :: os). split; [reflexivity|].
            simpl. rewrite Hbacks. reflexivity. }
      destruct Heach as (os & -> & Hback).
      exists (OInst cls os). split; [reflexivity|]. simpl. rewrite Hback.
      reflexivity.
Qed.

(** C7. For every generated class [C] and every mapping [m] that
    satisfies the constraints of [C], [C.from_dict(m)] succeeds and
    [to_dict] of the instance is [m] itself: the same keys in the same
    order, each with its value. *)
Theorem from_dict_to_dict (classes : list generated_class) (cls : string)
  (m : dict) :
  conforms classes (PDict m) (DInstance cls) = true ->
  exists instance,
    from_dict classes cls m = Some instance
    /\ to_dict instance = PDict m.
Proof.
  intros Hm. apply from_value_to_dict, Hm.
Qed.

(** The round trip of [test_module_code]. *)
Lemma from_dict_to_dict_witness :
  exists family,
    from_dict family_classes "Family" family_dict = Some family
    /\ to_dict family = PDict family_dict.
Proof.
  apply from_dict_to_dict. reflexivity.
Defined.

(** The two assertions of [test_module_code]: the instance built from
    [Person] instances serializes to the nested mapping, and [from_dict]
    of that mapping builds the same instance. *)
Example family_to_dict :
  to_dict (OInst "Family"
             [("people",
               OSeq [OInst "Person" [("name", OPlain (PStr "Alice"));
                                     ("age", OPlain (PInt 25))];
                     OInst "Person" [("name", OPlain (PStr "Bob"));
                                     ("age", OPlain (PInt 26))]])])
  = PDict family_dict.
Proof. reflexivity. Qed.

Example family_from_dict :
  from_dict family_classes "Family" family_dict
  = Some (OInst "Family"
            [("people",
              OSeq [OInst "Person" [("name", OPlain (PStr "Alice"));
                                    ("age", OPlain (PInt 25))];
                    OInst "Person" [("name", OPlain (PStr "Bob"));
                                    ("age", OPlain (PInt 26))]])]).
Proof. reflexivity. Qed.

(** A mapping with a value of the wrong type is rejected. *)
Example family_rejects :
  from_dict family_classes "Person"
    [("name", PStr "Alice"); ("age", PStr "old")] = None.
Proof. reflexivity. Qed.

(** * Further properties of the extractors *)

(** ** [SimpleTraitCode]: when it succeeds *)

Lemma py_in_strs_true (x : pyval) (strs : list string) :
  py_in_strs x strs = true -> exists t, x = PStr t /\ In t strs.
Proof.
  unfold py_in_strs. intros Hex.
  apply existsb_exists in Hex as (s & Hs & Heq).
  destruct x; try discriminate. simpl in Heq.
  apply String.eqb_eq in Heq. subst. eauto.
Qed.

(** X1. [SimpleTraitCode.check] decides whether [trait_code] succeeds:
    when it is true, [trait_code] returns a declaration; when it is
    false, [trait_code] raises before it looks at the schema, a
    [TypeError] for a list or dict type code (unhashable) and
    [KeyError(typecode)] otherwise. The store is unchanged either way. *)
Theorem simple_check_decides_trait_code {api : SchemaAPI} (h : store)
  (l : loc) (n : JSONSchema) (typ : pyval) (kwargs : dict) :
  h !! l = Some n ->
  exists b,
    SimpleTraitCode.check (mkExtractor l typ) h = (Ok b, h)
    /\ (b = true ->
        exists code,
          SimpleTraitCode.trait_code (mkExtractor l typ) kwargs h
          = (Ok code, h))
    /\ (b = false ->
        SimpleTraitCode.trait_code (mkExtractor l typ) kwargs h
        = (Raise match typ with
                 | PList _ | PDict _ => TypeError "unhashable type"
                 | _ => KeyError typ
                 end, h)).
Proof.
  intros Hl. exists (py_in_strs typ simple_types).
  split; [reflexivity|]. split.
  - intros Htrue. apply py_in_strs_true in Htrue as (t & -> & Ht).
    destruct (simple_trait_code_run h l n Hl t kwargs Ht)
      as (cls & keys & _ & _ & Hrun).
    eexists. exact Hrun.
  - intros Hfalse. unfold SimpleTraitCode.trait_code. cbn [typecode].
    destruct typ as [| | | |s| | |]; try reflexivity.
    unfold py_in_strs, simple_types in Hfalse.
    cbn [existsb py_eq_str] in Hfalse.
    rewrite !(String.eqb_sym s) in Hfalse.
    unfold bind, lift, table_getitem, classes. cbn [find fst snd].
    destruct (String.eqb "boolean" s); [discriminate|].
    destruct (String.eqb "null" s); [discriminate|].
    destruct (String.eqb "number" s); [discriminate|].
    destruct (String.eqb "integer" s); [discriminate|].
    destruct (String.eqb "string" s); [discriminate|].
    reflexivity.
Qed.

(** ** [CompoundTraitCode]: which type codes it accepts *)

Lemma forallb_simple_strings (xs : list pyval) :
  forallb (fun typ => py_in_strs typ simple_types) xs = true ->
  exists ts, xs = map PStr ts /\ Forall (fun t => In t simple_types) ts.
Proof.
  induction xs as [|x xs IH]; cbn [forallb]; intros Hall.
  - exists []. split; [reflexivity|constructor].
  - apply andb_true_iff in Hall as [Hx Hxs].
    apply py_in_strs_true in Hx as (t & -> & Ht).
    destruct (IH Hxs) as (ts & -> & Hts).
    exists (t :: ts). split; [reflexivity|]. constructor; assumption.
Qed.

Lemma compound_check_true (l : loc) (typ : pyval) (h : store) :
  fst (CompoundTraitCode.check (mkExtractor l typ) h) = Ok true ->
  exists ts, typ = PList (map PStr ts)
             /\ Forall (fun t => In t simple_types) ts.
Proof.
  unfold CompoundTraitCode.check, bind, lift, ret. cbn [typecode].
  destruct typ as [|b|z|m x|s|xs|d|x]; cbn [py_iter py_is_list fst snd];
    rewrite ?andb_false_r, ?andb_true_r; try discriminate.
  intros [= Hall].
  destruct (forallb_simple_strings xs Hall) as (ts & -> & Hts).
  exists ts. split; [reflexivity|exact Hts].
Qed.

(** X3. [CompoundTraitCode.check] never touches the store. It is true
    exactly for a list whose entries are all simple type names (the empty
    list included). It raises [TypeError] exactly for a type code that
    cannot be iterated (None, a boolean, a number, a [Variable]), because
    the iteration comes before the [isinstance] test; for a string or a
    dict it returns false. *)
Theorem compound_check_outcome (l : loc) (typ : pyval) (h : store) :
  snd (CompoundTraitCode.check (mkExtractor l typ) h) = h
  /\ (fst (CompoundTraitCode.check (mkExtractor l typ) h) = Ok true
      <-> exists ts, typ = PList (map PStr ts)
                     /\ Forall (fun t => In t simple_types) ts)
  /\ ((exists e, fst (CompoundTraitCode.check (mkExtractor l typ) h)
                 = Raise e)
      <-> match typ with
          | PList _ | PStr _ | PDict _ => False
          | _ => True
          end)
  /\ (forall e, fst (CompoundTraitCode.check (mkExtractor l typ) h) = Raise e
                -> exists msg, e = TypeError msg).
Proof.
  unfold CompoundTraitCode.check, bind, lift, ret. cbn [typecode].
  destruct typ as [|b|z|m x|s|xs|d|x]; cbn [py_iter py_is_list fst snd];
    rewrite ?andb_false_r, ?andb_true_r.
  1-4,8: split; [reflexivity|]; split;
    [split; [discriminate|intros (ts & [=] & _)]|];
    split; [split; [intros _; exact I|intros _; eexists; reflexivity]|];
    intros e [= <-]; eexists; reflexivity.
  1,3: split; [reflexivity|]; split;
    [split; [discriminate|intros (ts & [=] & _)]|];
    split; [split; [intros (e & [=])|intros []]|]; intros e [=].
  split; [reflexivity|]. split.
  - split.
    + intros [= Hall].
      destruct (forallb_simple_strings xs Hall) as (ts & -> & Hts).
      exists ts. split; [reflexivity|exact Hts].
    + intros (ts & [= ->] & Hts). rewrite all_simple by exact Hts.
      reflexivity.
  - split; [split; [intros (e & [=])|intros []]|]. intros e [=].
Qed.

Lemma existsb_null (ts : list string) :
  existsb (fun x => py_eq_str x "null") (map PStr ts)
  = existsb (fun t => String.eqb t "null") ts.
Proof.
  induction ts as [|t ts IH]; simpl; [reflexivity|].
  rewrite IH. reflexivity.
Qed.

Lemma without_null_simple (ts : list string) :
  Forall (fun t => In t simple_types) ts ->
  Forall (fun t => In t simple_types) (without_null ts).
Proof.
  intros Hts. apply Forall_forall. intros t Hin.
  apply list_elem_of_In, filter_In in Hin as [Hin _].
  rewrite Forall_forall in Hts. apply Hts, list_elem_of_In, Hin.
Qed.

Section CompoundRun.

Context {api : SchemaAPI}.
Variables (h : store) (l : loc) (n : JSONSchema).
Hypothesis Hl : h !! l = Some n.

(** [CompoundTraitCode.trait_code] on a list of strings, once the type
    list has been read and filtered. *)
Lemma compound_trait_code_run (ts : list string) (kwargs : dict) :
  Forall (fun t => In t simple_types) ts ->
  CompoundTraitCode.trait_code (mkExtractor l (PList (map PStr ts))) kwargs h
  = match without_null ts with
    | [t] =>
        SimpleTraitCode.trait_code (mkExtractor l (PStr t))
          (compound_kwargs ts kwargs) h
    | rest =>
        (codes <- mapM
           (fun typ =>
              simple <- TraitCodeExtractor.init l typ ;;
              SimpleTraitCode.trait_code simple
                (item_kwargs_of (compound_kwargs ts kwargs)))
           (map PStr rest) ;;
         ret (construct_function_call "jst.JSONUnion"
                [PVariable (PStr ("[" +:+ str_join ", " codes +:+ "]"))]
                (compound_kwargs ts kwargs))) h
    end.
Proof using Hl.
  intros Hts. unfold CompoundTraitCode.trait_code. cbn [typecode schema].
  erewrite bind_ok; [|unfold lift; cbn [py_contains_str];
                      rewrite existsb_null; reflexivity].
  fold (compound_kwargs ts kwargs).
  erewrite bind_ok; [|reflexivity].
  rewrite filter_not_null. fold (without_null ts).
  pose proof (without_null_simple ts Hts) as Hrest.
  destruct (without_null ts) as [|t [|t' rest]]; cbn [map]; try reflexivity.
  apply Forall_cons in Hrest as [Ht _].
  erewrite bind_ok; [reflexivity|].
  rewrite (init_run h l n Hl), (simple_type_truthy t Ht). reflexivity.
Qed.

(** One branch of a union, or the scalar a one-entry list degrades to. *)
Lemma simple_branch (t : string) (kwargs : dict) :
  In t simple_types ->
  exists cls kw,
    In (t, cls) classes
    /\ SimpleTraitCode.trait_code (mkExtractor l (PStr t)) kwargs h
       = (Ok (construct_function_call cls [] kw), h)
    /\ (In t ["string"; "boolean"; "null"] -> kw = kwargs)
    /\ (In t ["number"; "integer"] ->
        forall key v,
          In key numeric_keys ->
          dict_get (subtree n) key = Some v ->
          dict_get kw key = Some v)
    /\ (forall key, ~ In key numeric_keys ->
                    dict_get kw key = dict_get kwargs key).
Proof using Hl.
  intros Ht.
  destruct (simple_trait_code_run h l n Hl t kwargs Ht)
    as (cls & keys & Hcls & Hkeys & Hrun).
  exists cls, (dict_update kwargs (present_in (subtree n) keys [])).
  assert (Hget : forall key,
             dict_get (dict_update kwargs (present_in (subtree n) keys [])) key
             = if existsb (String.eqb key) keys
               then match dict_get (subtree n) key with
                    | Some v => Some v
                    | None => dict_get kwargs key
                    end
               else dict_get kwargs key).
  { intros key. rewrite dict_get_update by (apply present_in_wf; constructor).
    rewrite dict_get_present_in. cbn [dict_get].
    destruct (existsb (String.eqb key) keys); [|reflexivity].
    destruct (dict_get (subtree n) key); reflexivity. }
  split; [|split; [exact Hrun|split; [|split]]].
  - simpl in Ht. destruct Ht as [<-|[<-|[<-|[<-|[<-|[]]]]]];
      simpl in Hcls; injection Hcls as <-; simpl; tauto.
  - intros Hplain. simpl in Hplain.
    destruct Hplain as [<-|[<-|[<-|[]]]]; simpl in Hkeys;
      injection Hkeys as <-; reflexivity.
  - intros Hnum key v Hkey Hv. rewrite Hget, Hv.
    simpl in Hnum. destruct Hnum as [<-|[<-|[]]]; simpl in Hkeys;
      injection Hkeys as <-;
      simpl in Hkey; destruct Hkey as [<-|[<-|[<-|[<-|[<-|[]]]]]];
      reflexivity.
  - intros key Hkey. rewrite Hget.
    destruct (existsb (String.eqb key) keys) eqn:Hex; [|reflexivity].
    exfalso. apply Hkey. apply existsb_exists in Hex as (k & Hk & Hkk).
    apply String.eqb_eq in Hkk. subst k.
    simpl in Ht. destruct Ht as [<-|[<-|[<-|[<-|[<-|[]]]]]];
      simpl in Hkeys; injection Hkeys as <-; simpl in Hk |- *; tauto.
Qed.

End CompoundRun.

Lemma union_branches_run {api : SchemaAPI} (h : store) (l : loc)
  (n : JSONSchema) (rest : list string) (item_kwargs : dict) :
  h !! l = Some n ->
  Forall (fun t => In t simple_types) rest ->
  exists codes,
    mapM (fun typ =>
            simple <- TraitCodeExtractor.init l typ ;;
            SimpleTraitCode.trait_code simple item_kwargs)
         (map PStr rest) h = (Ok codes, h)
    /\ Forall2
         (fun t code =>
            exists cls kw,
              In (t, cls) classes
              /\ code = construct_function_call cls [] kw
              /\ (In t ["string"; "boolean"; "null"] -> kw = item_kwargs)
              /\ (In t ["number"; "integer"] ->
                  forall key v,
                    In key numeric_keys ->
                    dict_get (subtree n) key = Some v ->
                    dict_get kw key = Some v)
              /\ (forall key, ~ In key numeric_keys ->
                              dict_get kw key = dict_get item_kwargs key))
         rest codes.
Proof.
  intros Hl. induction rest as [|t rest IH]; intros Hrest.
  - exists []. split; [reflexivity|constructor].
  - apply Forall_cons in Hrest as [Ht Hrest].
    destruct (IH Hrest) as (codes & Hrun & Hcodes).
    destruct (simple_branch h l n Hl t item_kwargs Ht)
      as (cls & kw & Hcls & Hsimple & Hplain & Hnum & Hother).
    exists (construct_function_call cls [] kw :: codes). split.
    + cbn [map mapM]. unfold bind at 1. unfold bind at 1.
      rewrite (init_run h l n Hl), (simple_type_truthy t Ht), Hsimple.
      rewrite (bind_ok _ _ _ _ _ Hrun). reflexivity.
    + constructor; [|exact Hcodes].
      exists cls, kw. repeat split; assumption.
Qed.

Lemma compound_init {api : SchemaAPI} (h : store) (l : loc)
  (n : JSONSchema) :
  h !! l = Some n ->
  TraitCodeExtractor.init l PNone h = (Ok (mkExtractor l (node_type n)), h).
Proof. intros Hl. rewrite (init_run h l n Hl). reflexivity. Qed.

(** X4. Whenever [CompoundTraitCode.check] accepts a node, that is, for
    every list of simple type names, [trait_code] returns a declaration:
    it does not raise, and it leaves the store as it is. *)
Theorem compound_check_then_code {api : SchemaAPI} (h : store) (l : loc)
  (n : JSONSchema) (ts : list string) (kwargs : dict) :
  h !! l = Some n ->
  node_type n = PList (map PStr ts) ->
  Forall (fun t => In t simple_types) ts ->
  (self <- TraitCodeExtractor.init l PNone ;;
   CompoundTraitCode.check self) h = (Ok true, h)
  /\ exists code,
      (self <- TraitCodeExtractor.init l PNone ;;
       CompoundTraitCode.trait_code self kwargs) h = (Ok code, h).
Proof.
  intros Hl Ht Hts.
  rewrite !(bind_ok _ _ _ _ _ (compound_init h l n Hl)), Ht.
  split.
  - unfold CompoundTraitCode.check, bind, lift, ret. cbn [typecode py_iter].
    rewrite (all_simple ts Hts). reflexivity.
  - rewrite (compound_trait_code_run h l n Hl ts kwargs Hts).
    pose proof (without_null_simple ts Hts) as Hrest.
    destruct (union_branches_run h l n (without_null ts)
                (item_kwargs_of (compound_kwargs ts kwargs)) Hl Hrest)
      as (codes & Hrun & _).
    destruct (without_null ts) as [|t [|t' rest]] eqn:Hw.
    + rewrite (bind_ok _ _ _ _ _ Hrun). eexists. reflexivity.
    + apply Forall_cons in Hrest as [Hsimple _].
      destruct (simple_trait_code_run h l n Hl t (compound_kwargs ts kwargs)
                  Hsimple) as (cls & keys & _ & _ & Hcode).
      eexists. exact Hcode.
    + rewrite (bind_ok _ _ _ _ _ Hrun). eexists. reflexivity.
Qed.

Lemma without_null_id (ts : list string) :
  ~ In "null" ts ->
  without_null ts = ts /\ existsb (fun t => String.eqb t "null") ts = false.
Proof.
  induction ts as [|t ts IH]; intros Hnot; [split; reflexivity|].
  unfold without_null in *. cbn [List.filter existsb].
  destruct (String.eqb_spec t "null") as [->|Hne].
  - exfalso. apply Hnot. left. reflexivity.
  - destruct IH as [-> ->]; [|split; reflexivity].
    intros Hin. apply Hnot. right. exact Hin.
Qed.

(** X5. For a list of simple type names without "null",
    [CompoundTraitCode.trait_code] adds no [allow_none]: a one-entry list
    gives exactly the simple-scalar code of that type with the caller's
    keyword arguments, and any other list gives a [jst.JSONUnion] call
    with exactly the caller's keyword arguments, whose one positional
    argument is the text made of an opening bracket, one branch per
    entry in the order of the list (repeated entries are not merged)
    with a comma and a space between each two of them, and a closing
    bracket; each branch is the simple-scalar code of its entry, built
    from the caller's keyword arguments without [allow_none] and
    [allow_undefined]. *)
Theorem compound_without_null {api : SchemaAPI} (h : store) (l : loc)
  (n : JSONSchema) (ts : list string) (kwargs : dict) :
  h !! l = Some n ->
  node_type n = PList (map PStr ts) ->
  Forall (fun t => In t simple_types) ts ->
  ~ In "null" ts ->
  let run := (self <- TraitCodeExtractor.init l PNone ;;
              CompoundTraitCode.trait_code self kwargs) h in
  (forall t, ts = [t] ->
     run = SimpleTraitCode.trait_code (mkExtractor l (PStr t)) kwargs h)
  /\ (length ts <> 1 ->
      exists codes,
        length codes = length ts
        /\ Forall2 (fun t code =>
                      SimpleTraitCode.trait_code (mkExtractor l (PStr t))
                        (item_kwargs_of kwargs) h = (Ok code, h)) ts codes
        /\ (forall key,
              dict_get (item_kwargs_of kwargs) key
              = if String.eqb key "allow_none"
                   || String.eqb key "allow_undefined"
                then None else dict_get kwargs key)
        /\ run = (Ok (construct_function_call "jst.JSONUnion"
                        [PVariable
                           (PStr ("[" +:+ String.concat ", " codes
                                      +:+ "]"))]
                        kwargs), h)).
Proof.
  intros Hl Ht Hts Hnull run.
  assert (Hrun : run = CompoundTraitCode.trait_code
                         (mkExtractor l (PList (map PStr ts))) kwargs h).
  { unfold run. rewrite (bind_ok _ _ _ _ _ (compound_init h l n Hl)), Ht.
    reflexivity. }
  rewrite Hrun, (compound_trait_code_run h l n Hl ts kwargs Hts).
  destruct (without_null_id ts Hnull) as [Hw Hex].
  unfold compound_kwargs. rewrite Hw, Hex.
  split.
  - intros t ->. reflexivity.
  - intros Hlen.
    destruct (compound_items_run h l n Hl ts (item_kwargs_of kwargs) Hts)
      as (codes & Hcodes & Hmap).
    exists codes. split; [symmetry; eapply Forall2_length, Hcodes|].
    split; [exact Hcodes|]. split.
    { intros key. apply dict_get_item_kwargs. }
    rewrite <- (str_join_concat ", " codes).
    destruct ts as [|t [|t' rest]].
    + rewrite (bind_ok _ _ _ _ _ Hmap). reflexivity.
    + exfalso. apply Hlen. reflexivity.
    + rewrite (bind_ok _ _ _ _ _ Hmap). reflexivity.
Qed.

(** X6. In the branches of a union, the numeric validation keywords of
    the schema reach only the number and integer branches; a string,
    boolean or null branch gets exactly the caller's keyword arguments
    without the two flags; and no branch ever has [allow_none] or
    [allow_undefined], whatever the caller passed. *)
Theorem union_branch_keywords {api : SchemaAPI} (h : store) (l : loc)
  (n : JSONSchema) (ts : list string) (kwargs : dict) :
  h !! l = Some n ->
  node_type n = PList (map PStr ts) ->
  Forall (fun t => In t simple_types) ts ->
  length (without_null ts) <> 1 ->
  exists codes,
    (self <- TraitCodeExtractor.init l PNone ;;
     CompoundTraitCode.trait_code self kwargs) h
    = (Ok (construct_function_call "jst.JSONUnion"
             [PVariable (PStr ("[" +:+ str_join ", " codes +:+ "]"))]
             (compound_kwargs ts kwargs)), h)
    /\ Forall2
         (fun t code =>
            exists cls kw,
              In (t, cls) classes
              /\ code = construct_function_call cls [] kw
              /\ dict_get kw "allow_none" = None
              /\ dict_get kw "allow_undefined" = None
              /\ (In t ["string"; "boolean"; "null"] ->
                  kw = item_kwargs_of (compound_kwargs ts kwargs))
              /\ (In t ["number"; "integer"] ->
                  forall key v,
                    In key numeric_keys ->
                    dict_get (subtree n) key = Some v ->
                    dict_get kw key = Some v))
         (without_null ts) codes.
Proof.
  intros Hl Ht Hts Hlen.
  rewrite (bind_ok _ _ _ _ _ (compound_init h l n Hl)), Ht.
  rewrite (compound_trait_code_run h l n Hl ts kwargs Hts).
  pose proof (without_null_simple ts Hts) as Hrest.
  destruct (union_branches_run h l n (without_null ts)
              (item_kwargs_of (compound_kwargs ts kwargs)) Hl Hrest)
    as (codes & Hrun & Hcodes).
  exists codes. split.
  - destruct (without_null ts) as [|t [|t' rest]].
    + rewrite (bind_ok _ _ _ _ _ Hrun). reflexivity.
    + exfalso. apply Hlen. reflexivity.
    + rewrite (bind_ok _ _ _ _ _ Hrun). reflexivity.
  - eapply Forall2_impl; [exact Hcodes|].
    intros t code (cls & kw & Hcls & Hcode & Hplain & Hnum & Hother).
    exists cls, kw.
    split; [exact Hcls|]. split; [exact Hcode|].
    split; [|split; [|split; assumption]].
    + rewrite Hother, dict_get_item_kwargs; [reflexivity|].
      simpl. intuition discriminate.
    + rewrite Hother, dict_get_item_kwargs; [reflexivity|].
      simpl. intuition discriminate.
Qed.

(** ** Which extractor takes a node *)

(** X7. The four extractors that go by the type are mutually exclusive:
    for the extractors built on one node, at most one of the [check]s of
    [SimpleTraitCode], [CompoundTraitCode], [ArrayTraitCode] and
    [ObjectTraitCode] returns true. Nothing is said of a [check] that
    raises: [CompoundTraitCode.check] does on a type code that cannot be
    iterated. *)
Theorem type_checks_exclusive {api : SchemaAPI} (h : store) (l : loc)
  (n : JSONSchema) :
  h !! l = Some n ->
  let self := mkExtractor l (node_type n) in
  let accepts (check : TraitCodeExtractor -> M bool) :=
    fst (check self h) = Ok true in
  (accepts SimpleTraitCode.check ->
   ~ accepts CompoundTraitCode.check /\ ~ accepts ArrayTraitCode.check
   /\ ~ accepts ObjectTraitCode.check)
  /\ (accepts CompoundTraitCode.check ->
      ~ accepts ArrayTraitCode.check /\ ~ accepts ObjectTraitCode.check)
  /\ (accepts ArrayTraitCode.check -> ~ accepts ObjectTraitCode.check).
Proof.
  intros Hl self accepts. unfold accepts, self.
  unfold ArrayTraitCode.check. cbn [schema].
  rewrite (bind_ok _ _ _ _ _ (get_node_run h l n Hl)).
  unfold SimpleTraitCode.check, ObjectTraitCode.check, ret.
  cbn [typecode fst].
  split; [|split].
  - intros [= Hsimple].
    destruct (py_in_strs_true (node_type n) simple_types Hsimple)
      as (t & -> & Ht).
    unfold CompoundTraitCode.check, bind, lift, ret.
    cbn [typecode py_iter py_is_list fst py_eq_str].
    rewrite andb_false_r.
    simpl in Ht. destruct Ht as [<-|[<-|[<-|[<-|[<-|[]]]]]];
      repeat split; discriminate.
  - intros Hcompound.
    destruct (compound_check_true l (node_type n) h Hcompound)
      as (ts & -> & _).
    split; discriminate.
  - intros [= Harray]. destruct (node_type n); try discriminate.
    simpl in Harray. apply String.eqb_eq in Harray. subst.
    discriminate.
Qed.

(** X8. The extractors that go by a keyword: [check] is true exactly
    when the schema has the keyword, and when it is false [trait_code]
    raises [KeyError] on that keyword, whatever the keyword arguments,
    without changing the store. *)
Theorem keyword_check_false_then_key_error {api : SchemaAPI} (h : store)
  (l : loc) (n : JSONSchema) (typ : pyval)
  (check : TraitCodeExtractor -> M bool)
  (code : TraitCodeExtractor -> dict -> M string) (key : string) :
  h !! l = Some n ->
  In (check, code, key)
     [(RefTraitCode.check, RefTraitCode.trait_code, "$ref");
      (EnumTraitCode.check, EnumTraitCode.trait_code, "enum");
      (AnyOfTraitCode.check, AnyOfTraitCode.trait_code, "anyOf");
      (OneOfTraitCode.check, OneOfTraitCode.trait_code, "oneOf");
      (AllOfTraitCode.check, AllOfTraitCode.trait_code, "allOf");
      (NotTraitCode.check, NotTraitCode.trait_code, "not")] ->
  check (mkExtractor l typ) h = (Ok (dict_contains (subtree n) key), h)
  /\ (dict_contains (subtree n) key = false ->
      forall kwargs,
        code (mkExtractor l typ) kwargs h
        = (Raise (KeyError (PStr key)), h)).
Proof.
  intros Hl Hin.
  assert (Hitem : dict_contains (subtree n) key = false ->
                  node_getitem l key h = (Raise (KeyError (PStr key)), h)).
  { intros Hno. rewrite (node_getitem_run h l n Hl).
    rewrite dict_contains_get in Hno.
    destruct (dict_get (subtree n) key); [discriminate|reflexivity]. }
  simpl in Hin.
  destruct Hin as [[= <- <- <-]|[[= <- <- <-]|[[= <- <- <-]|
                  [[= <- <- <-]|[[= <- <- <-]|[[= <- <- <-]|[]]]]]]];
    (split; [apply (node_contains_run h l n Hl)|]);
    intros Hno kwargs.
  - unfold RefTraitCode.trait_code. cbn [schema].
    apply bind_raise, Hitem, Hno.
  - unfold EnumTraitCode.trait_code. cbn [schema].
    apply bind_raise, Hitem, Hno.
  - unfold AnyOfTraitCode.trait_code, children_of. cbn [schema].
    apply bind_raise, bind_raise, Hitem, Hno.
  - unfold OneOfTraitCode.trait_code, children_of. cbn [schema].
    apply bind_raise, bind_raise, Hitem, Hno.
  - unfold AllOfTraitCode.trait_code, children_of. cbn [schema].
    apply bind_raise, bind_raise, Hitem, Hno.
  - unfold NotTraitCode.trait_code. cbn [schema].
    apply bind_raise, Hitem, Hno.
Qed.

(** X9. [EnumTraitCode]: when the schema has [enum], [trait_code]
    returns the [jst.JSONEnum] call whose one positional argument is the
    value of [enum] as it stands (whatever its shape, no test that it is
    a list) and whose keyword arguments are exactly the caller's. *)
Theorem enum_value_verbatim {api : SchemaAPI} (h : store) (l : loc)
  (n : JSONSchema) (typ enum : pyval) (kwargs : dict) :
  h !! l = Some n ->
  dict_get (subtree n) "enum" = Some enum ->
  EnumTraitCode.check (mkExtractor l typ) h = (Ok true, h)
  /\ EnumTraitCode.trait_code (mkExtractor l typ) kwargs h
     = (Ok (construct_function_call "jst.JSONEnum" [enum] kwargs), h).
Proof.
  intros Hl Henum. split.
  - unfold EnumTraitCode.check. cbn [schema].
    rewrite (node_contains_run h l n Hl), dict_contains_get, Henum.
    reflexivity.
  - unfold EnumTraitCode.trait_code. cbn [schema].
    erewrite bind_ok; [reflexivity|].
    rewrite (node_getitem_run h l n Hl), Henum. reflexivity.
Qed.

(** ** [RefTraitCode]: keyword arguments of an alias *)

(** X10. When the resolved node is not an object class,
    [RefTraitCode.trait_code] does not pass its keyword arguments on:
    the outcome, result and store, is the same for any two sets of
    keyword arguments. *)
Theorem ref_alias_drops_kwargs {api : SchemaAPI} (h h1 : store)
  (l ref : loc) (n r : JSONSchema) (typ target : pyval)
  (kwargs kwargs' : dict) :
  h !! l = Some n ->
  dict_get (subtree n) "$ref" = Some target ->
  get_reference l target h = (Ok ref, h1) ->
  h1 !! ref = Some r ->
  is_object r = false ->
  RefTraitCode.trait_code (mkExtractor l typ) kwargs h
  = RefTraitCode.trait_code (mkExtractor l typ) kwargs' h.
Proof.
  intros Hl Href Hget Hr Hobj.
  assert (Hitem : node_getitem l "$ref" h = (Ok target, h)).
  { rewrite (node_getitem_run h l n Hl), Href. reflexivity. }
  unfold RefTraitCode.trait_code. cbn [schema].
  rewrite !(bind_ok _ _ _ _ _ Hitem), !(bind_ok _ _ _ _ _ Hget).
  rewrite !(bind_ok _ _ _ _ _ (get_node_run h1 ref r Hr)), Hobj.
  reflexivity.
Qed.

(** ** Composition extractors and [NotTraitCode] *)

Lemma mapM_ok_each {A B : Type} (f : A -> M B) (xs : list A) (ys : list B)
  (h h' : store) :
  mapM f xs h = (Ok ys, h') ->
  Forall2 (fun x y => exists h1 h2, f x h1 = (Ok y, h2)) xs ys.
Proof.
  revert ys h. induction xs as [|x xs IH]; intros ys h; simpl.
  - intros [= <- _]. constructor.
  - unfold bind at 1. destruct (f x h) as [[y|e] h1] eqn:Hx;
      [|discriminate].
    unfold bind at 1. destruct (mapM f xs h1) as [[ys'|e] h2] eqn:Hxs;
      [|discriminate].
    intros [= <- <-]. constructor; [eauto|]. eapply IH, Hxs.
Qed.

Lemma mapM_stops {A B : Type} (f : A -> M B) (done : list A) (x : A)
  (rest : list A) (ys : list B) (h h1 h2 : store) (e : exn) :
  mapM f done h = (Ok ys, h1) ->
  f x h1 = (Raise e, h2) ->
  mapM f (done ++ x :: rest) h = (Raise e, h2).
Proof.
  revert ys h. induction done as [|d done IH]; intros ys h; simpl.
  - intros [= _ <-] Hx. rewrite (bind_raise _ _ _ _ _ Hx). reflexivity.
  - unfold bind at 1. destruct (f d h) as [[y|e'] h'] eqn:Hd;
      [|discriminate].
    unfold bind at 1. destruct (mapM f done h') as [[ys'|e'] h''] eqn:Hdone;
      [|discriminate].
    intros [= _ <-] Hx. unfold bind at 1. rewrite Hd.
    erewrite bind_raise; [reflexivity|]. eapply IH; eassumption.
Qed.

(** X11. When [AnyOfTraitCode], [OneOfTraitCode] or [AllOfTraitCode]
    returns, the call has one positional argument, a [Variable] on a
    list with one [Variable] per sub-schema, in the order of the schema,
    each holding the trait code of a child node made at that sub-schema;
    the keyword arguments are exactly the caller's. *)
Theorem composition_children {api : SchemaAPI} (h h' : store) (l : loc)
  (n : JSONSchema) (typ : pyval) (kwargs : dict)
  (code : TraitCodeExtractor -> dict -> M string) (key name : string)
  (text : string) :
  h !! l = Some n ->
  In (code, key, name)
     [(AnyOfTraitCode.trait_code, "anyOf", "jst.JSONAnyOf");
      (OneOfTraitCode.trait_code, "oneOf", "jst.JSONOneOf");
      (AllOfTraitCode.trait_code, "allOf", "jst.JSONAllOf")] ->
  code (mkExtractor l typ) kwargs h = (Ok text, h') ->
  exists v subs children,
    dict_get (subtree n) key = Some v
    /\ py_iter v = Ok subs
    /\ text = construct_function_call name [PVariable (PList children)]
                kwargs
    /\ Forall2
         (fun sub child =>
            exists h1 node h2 h3 item,
              make_child l sub h1 = (Ok node, h2)
              /\ trait_code node h2 = (Ok item, h3)
              /\ child = PVariable (PStr item))
         subs children.
Proof.
  intros Hl Hin Hrun.
  assert (Hchildren :
            forall children h0,
              children_of l key h = (Ok children, h0) ->
              exists v subs,
                dict_get (subtree n) key = Some v
                /\ py_iter v = Ok subs
                /\ Forall2
                     (fun sub child =>
                        exists h1 node h2 h3 item,
                          make_child l sub h1 = (Ok node, h2)
                          /\ trait_code node h2 = (Ok item, h3)
                          /\ child = PVariable (PStr item))
                     subs children).
  { intros children h0. unfold children_of.
    unfold bind at 1. rewrite (node_getitem_run h l n Hl).
    destruct (dict_get (subtree n) key) as [v|]; [|discriminate].
    unfold bind at 1. unfold lift at 1.
    destruct (py_iter v) as [subs|e] eqn:Hiter; [|discriminate].
    intros Hmap. exists v, subs. split; [reflexivity|].
    split; [exact Hiter|].
    apply mapM_ok_each in Hmap.
    eapply Forall2_impl; [exact Hmap|].
    intros sub child (h1 & h2 & Hstep). unfold bind in Hstep.
    destruct (make_child l sub h1) as [[node|e] h1'] eqn:Hchild;
      [|discriminate].
    destruct (trait_code node h1') as [[item|e] h1''] eqn:Hcode;
      [|discriminate].
    injection Hstep as <- <-. exists h1, node, h1', h1'', item.
    repeat split; assumption. }
  simpl in Hin.
  destruct Hin as [[= <- <- <-]|[[= <- <- <-]|[[= <- <- <-]|[]]]].
  - unfold AnyOfTraitCode.trait_code, bind in Hrun. cbn [schema] in Hrun.
    destruct (children_of l "anyOf" h) as [[children|e] h0] eqn:Hc;
      [|discriminate].
    injection Hrun as <- <-.
    destruct (Hchildren children h0 eq_refl)
      as (v & subs & Hv & Hsubs & Hall).
    exists v, subs, children. repeat split; assumption.
  - unfold OneOfTraitCode.trait_code, bind in Hrun. cbn [schema] in Hrun.
    destruct (children_of l "oneOf" h) as [[children|e] h0] eqn:Hc;
      [|discriminate].
    injection Hrun as <- <-.
    destruct (Hchildren children h0 eq_refl)
      as (v & subs & Hv & Hsubs & Hall).
    exists v, subs, children. repeat split; assumption.
  - unfold AllOfTraitCode.trait_code, bind in Hrun. cbn [schema] in Hrun.
    destruct (children_of l "allOf" h) as [[children|e] h0] eqn:Hc;
      [|discriminate].
    injection Hrun as <- <-.
    destruct (Hchildren children h0 eq_refl)
      as (v & subs & Hv & Hsubs & Hall).
    exists v, subs, children. repeat split; assumption.
Qed.

(** X12. The composition extractors stop at the first sub-schema whose
    child code raises: the exception is passed on, and the store is the
    one that failing step left, so the later sub-schemas are not
    visited. *)
Theorem composition_stops_at_failure {api : SchemaAPI} (h h1 h2 : store)
  (l : loc) (n : JSONSchema) (typ : pyval) (kwargs : dict)
  (code : TraitCodeExtractor -> dict -> M string) (key name : string)
  (done rest : list pyval) (sub : pyval) (children : list pyval)
  (e : exn) :
  h !! l = Some n ->
  In (code, key, name)
     [(AnyOfTraitCode.trait_code, "anyOf", "jst.JSONAnyOf");
      (OneOfTraitCode.trait_code, "oneOf", "jst.JSONOneOf");
      (AllOfTraitCode.trait_code, "allOf", "jst.JSONAllOf")] ->
  dict_get (subtree n) key = Some (PList (done ++ sub :: rest)) ->
  mapM (fun s => child_code (fun item => PVariable (PStr item)) s l) done h
  = (Ok children, h1) ->
  child_code (fun item => PVariable (PStr item)) sub l h1 = (Raise e, h2) ->
  code (mkExtractor l typ) kwargs h = (Raise e, h2).
Proof.
  intros Hl Hin Hkey Hdone Hsub.
  assert (Hchildren : children_of l key h = (Raise e, h2)).
  { unfold children_of.
    erewrite bind_ok; [|rewrite (node_getitem_run h l n Hl), Hkey;
                        reflexivity].
    erewrite bind_ok; [|reflexivity].
    exact (mapM_stops _ done sub rest children h h1 h2 e Hdone Hsub). }
  simpl in Hin.
  destruct Hin as [[= <- <- <-]|[[= <- <- <-]|[[= <- <- <-]|[]]]].
  - unfold AnyOfTraitCode.trait_code. cbn [schema].
    apply bind_raise, Hchildren.
  - unfold OneOfTraitCode.trait_code. cbn [schema].
    apply bind_raise, Hchildren.
  - unfold AllOfTraitCode.trait_code. cbn [schema].
    apply bind_raise, Hchildren.
Qed.

(** X13. On an empty list of sub-schemas the composition extractors do
    not raise: they return the call on a [Variable] holding the empty
    list, with the caller's keyword arguments, and create no node. *)
Theorem composition_of_nothing {api : SchemaAPI} (h : store) (l : loc)
  (n : JSONSchema) (typ : pyval) (kwargs : dict)
  (code : TraitCodeExtractor -> dict -> M string) (key name : string) :
  h !! l = Some n ->
  In (code, key, name)
     [(AnyOfTraitCode.trait_code, "anyOf", "jst.JSONAnyOf");
      (OneOfTraitCode.trait_code, "oneOf", "jst.JSONOneOf");
      (AllOfTraitCode.trait_code, "allOf", "jst.JSONAllOf")] ->
  dict_get (subtree n) key = Some (PList []) ->
  code (mkExtractor l typ) kwargs h
  = (Ok (construct_function_call name [PVariable (PList [])] kwargs), h).
Proof.
  intros Hl Hin Hkey.
  assert (Hchildren : children_of l key h = (Ok [], h)).
  { unfold children_of.
    erewrite bind_ok; [|rewrite (node_getitem_run h l n Hl), Hkey;
                        reflexivity].
    erewrite bind_ok; [|reflexivity]. reflexivity. }
  simpl in Hin.
  destruct Hin as [[= <- <- <-]|[[= <- <- <-]|[[= <- <- <-]|[]]]].
  - unfold AnyOfTraitCode.trait_code. cbn [schema].
    rewrite (bind_ok _ _ _ _ _ Hchildren). reflexivity.
  - unfold OneOfTraitCode.trait_code. cbn [schema].
    rewrite (bind_ok _ _ _ _ _ Hchildren). reflexivity.
  - unfold AllOfTraitCode.trait_code. cbn [schema].
    rewrite (bind_ok _ _ _ _ _ Hchildren). reflexivity.
Qed.

(** X14. [NotTraitCode.trait_code] makes a child node at the value of
    [not], whatever that value is (a list is not turned away as it is
    for [items]), and wraps the child's trait code in a [jst.JSONNot]
    call with the caller's keyword arguments; an exception of
    [make_child] or of the child's trait code is passed on and no call
    is built. *)
Theorem not_trait_code_outcome {api : SchemaAPI} (h : store) (l : loc)
  (n : JSONSchema) (typ sub : pyval) (kwargs : dict) :
  h !! l = Some n ->
  dict_get (subtree n) "not" = Some sub ->
  let run := NotTraitCode.trait_code (mkExtractor l typ) kwargs h in
  (forall e h1, make_child l sub h = (Raise e, h1) -> run = (Raise e, h1))
  /\ (forall child h1,
        make_child l sub h = (Ok child, h1) ->
        (forall e h2, trait_code child h1 = (Raise e, h2) ->
                      run = (Raise e, h2))
        /\ (forall not_this h2,
              trait_code child h1 = (Ok not_this, h2) ->
              run = (Ok (construct_function_call "jst.JSONNot"
                           [PVariable (PStr not_this)] kwargs), h2))).
Proof.
  intros Hl Hsub run. unfold run, NotTraitCode.trait_code. cbn [schema].
  erewrite bind_ok; [|rewrite (node_getitem_run h l n Hl), Hsub;
                      reflexivity].
  split.
  - intros e h1 Hchild. apply bind_raise, Hchild.
  - intros child h1 Hchild. rewrite (bind_ok _ _ _ _ _ Hchild). split.
    + intros e h2 Hcode. apply bind_raise, Hcode.
    + intros not_this h2 Hcode. rewrite (bind_ok _ _ _ _ _ Hcode).
      reflexivity.
Qed.

(** ** [SimpleTraitCode]: what it reads of the schema *)

Lemma present_in_ext (d d' : dict) (keys : list string) (acc : dict) :
  (forall key, In key keys -> dict_get d key = dict_get d' key) ->
  present_in d keys acc = present_in d' keys acc.
Proof.
  unfold present_in. revert acc.
  induction keys as [|key keys IH]; intros acc Hagree; simpl;
    [reflexivity|].
  rewrite (Hagree key (or_introl eq_refl)).
  apply IH. intros k Hk. apply Hagree. right. exact Hk.
Qed.

Lemma validation_keys_of (typ : pyval) (keys : list string) :
  table_get validation_keys typ [] = Ok keys ->
  keys = [] \/ keys = numeric_keys.
Proof.
  unfold table_get, validation_keys.
  destruct typ as [|b|z|m x|s|xs|d|x]; try discriminate;
    try (intros [= <-]; left; reflexivity).
  cbn [find fst snd].
  destruct (String.eqb "number" s); [intros [= <-]; right; reflexivity|].
  destruct (String.eqb "integer" s); [intros [= <-]; right; reflexivity|].
  intros [= <-]. left. reflexivity.
Qed.

(** X16. Of the schema, [SimpleTraitCode.trait_code] reads nothing but
    the five numeric validation keywords: on two nodes whose schemas
    agree on those five, it gives the same outcome for the same type code
    and keyword arguments, whatever else the schemas hold. *)
Theorem simple_reads_only_numeric_keys {api : SchemaAPI} (h h' : store)
  (l l' : loc) (n n' : JSONSchema) (typ : pyval) (kwargs : dict) :
  h !! l = Some n ->
  h' !! l' = Some n' ->
  (forall key, In key numeric_keys ->
               dict_get (subtree n) key = dict_get (subtree n') key) ->
  fst (SimpleTraitCode.trait_code (mkExtractor l typ) kwargs h)
  = fst (SimpleTraitCode.trait_code (mkExtractor l' typ) kwargs h').
Proof.
  intros Hl Hl' Hagree.
  unfold SimpleTraitCode.trait_code. cbn [typecode schema].
  unfold bind at 1 3. unfold lift at 1 3.
  destruct (table_getitem classes typ) as [cls|e]; [|reflexivity].
  unfold bind at 1 3. unfold lift at 1 2.
  destruct (table_get validation_keys typ []) as [keys|e] eqn:Hkeys;
    [|reflexivity].
  unfold bind.
  rewrite (present_items_run h l n Hl), (present_items_run h' l' n' Hl').
  cbn [fst ret].
  rewrite (present_in_ext (subtree n) (subtree n') keys []); [reflexivity|].
  intros key Hkey. apply Hagree.
  destruct (validation_keys_of typ keys Hkeys) as [-> | ->];
    [destruct Hkey|exact Hkey].
Qed.

(** ** The further properties at sample schemas *)

Section MoreSamples.

#[local] Existing Instance sample_api.

Lemma simple_check_decides_trait_code_witness :
  exists code,
    SimpleTraitCode.trait_code (mkExtractor 0 (PStr "integer")) []
      (root_store integer_schema)
    = (Ok code, root_store integer_schema).
Proof.
  destruct (simple_check_decides_trait_code (root_store integer_schema) 0
              (root_node integer_schema) (PStr "integer") []
              ltac:(reflexivity)) as (b & Hcheck & Htrue & _).
  apply Htrue. injection Hcheck as <-. reflexivity.
Defined.

Lemma compound_check_then_code_witness :
  exists code,
    (self <- TraitCodeExtractor.init 0 PNone ;;
     CompoundTraitCode.trait_code self [])
      (root_store union_schema)
    = (Ok code, root_store union_schema).
Proof.
  apply (compound_check_then_code (root_store union_schema) 0
           (root_node union_schema) ["string"; "null"; "number"] []
           ltac:(reflexivity) ltac:(reflexivity)
           ltac:(repeat constructor; simpl; tauto)).
Defined.

Lemma compound_without_null_witness :
  (self <- TraitCodeExtractor.init 0 PNone ;;
   CompoundTraitCode.trait_code self [("allow_none", PBool false)])
    (root_store plain_union_schema)
  = (Ok "jst.JSONUnion([jst.JSONString(), jst.JSONNumber(minimum=0)], allow_none=False)",
     root_store plain_union_schema).
Proof.
  pose proof (compound_without_null (root_store plain_union_schema) 0
                (root_node plain_union_schema) ["string"; "number"]
                [("allow_none", PBool false)]
                ltac:(reflexivity) ltac:(reflexivity)
                ltac:(repeat constructor; simpl; tauto)
                ltac:(simpl; intuition discriminate)) as H.
  cbv zeta in H. destruct H as (_ & Hunion).
  destruct (Hunion ltac:(discriminate)) as (codes & _ & Hcodes & _ & Hrun).
  rewrite Hrun. clear Hrun Hunion.
  inversion Hcodes as [|t1 c1 r1 cs1 H1 Hcodes1]; subst.
  inversion Hcodes1 as [|t2 c2 r2 cs2 H2 Hcodes2]; subst.
  inversion Hcodes2; subst.
  vm_compute in H1. vm_compute in H2.
  injection H1 as <-. injection H2 as <-.
  vm_compute. reflexivity.
Defined.

Lemma union_branch_keywords_witness :
  exists codes,
    length codes = 2
    /\ (self <- TraitCodeExtractor.init 0 PNone ;;
        CompoundTraitCode.trait_code self [])
         (root_store union_schema)
       = (Ok (render_call "jst.JSONUnion"
                [PVariable (PStr ("[" +:+ str_join ", " codes +:+ "]"))]
                [("allow_none", PBool true)]), root_store union_schema).
Proof.
  destruct (union_branch_keywords (root_store union_schema) 0
              (root_node union_schema) ["string"; "null"; "number"] []
              ltac:(reflexivity) ltac:(reflexivity)
              ltac:(repeat constructor; simpl; tauto)
              ltac:(discriminate)) as (codes & Hrun & Hcodes).
  exists codes. split; [|exact Hrun].
  apply Forall2_length in Hcodes. symmetry. exact Hcodes.
Defined.

Lemma type_checks_exclusive_witness :
  fst (ArrayTraitCode.check
         (mkExtractor 0 (node_type (root_node array_schema)))
         (root_store array_schema)) = Ok true
  /\ fst (ObjectTraitCode.check
            (mkExtractor 0 (node_type (root_node array_schema)))
            (root_store array_schema)) <> Ok true.
Proof.
  pose proof (type_checks_exclusive (root_store array_schema) 0
                (root_node array_schema) ltac:(reflexivity)) as H.
  cbv zeta in H. destruct H as (_ & _ & Harray).
  split; [reflexivity|]. apply Harray. reflexivity.
Defined.

Lemma keyword_check_false_then_key_error_witness :
  RefTraitCode.trait_code (mkExtractor 0 PNone) []
    (root_store string_schema)
  = (Raise (KeyError (PStr "$ref")), root_store string_schema).
Proof.
  apply (keyword_check_false_then_key_error (root_store string_schema) 0
           (root_node string_schema) PNone
           RefTraitCode.check RefTraitCode.trait_code "$ref"
           ltac:(reflexivity) ltac:(simpl; tauto)).
  reflexivity.
Defined.

Lemma enum_value_verbatim_witness :
  EnumTraitCode.trait_code (mkExtractor 0 PNone) []
    (root_store enum_schema)
  = (Ok (render_call "jst.JSONEnum"
           [PList [PInt 1; PInt 2; PStr "three"]] []),
     root_store enum_schema).
Proof.
  apply (enum_value_verbatim (root_store enum_schema) 0
           (root_node enum_schema) PNone
           (PList [PInt 1; PInt 2; PStr "three"]) []
           ltac:(reflexivity) ltac:(reflexivity)).
Defined.

Lemma ref_alias_drops_kwargs_witness :
  RefTraitCode.trait_code (mkExtractor 0 PNone) []
    (root_store alias_schema)
  = RefTraitCode.trait_code (mkExtractor 0 PNone)
      [("allow_none", PBool true)] (root_store alias_schema).
Proof.
  set (h := root_store alias_schema).
  set (target := PStr "#/shared/name").
  assert (Hget : get_reference 0 target h
                 = (Ok 1, snd (get_reference 0 target h)))
    by (vm_compute; reflexivity).
  eassert (Hr : snd (get_reference 0 target h) !! 1 = Some _)
    by (vm_compute; reflexivity).
  apply (ref_alias_drops_kwargs h _ 0 1 (root_node alias_schema) _ PNone
           target [] [("allow_none", PBool true)]
           ltac:(reflexivity) ltac:(reflexivity) Hget Hr).
  reflexivity.
Defined.

Lemma composition_children_witness :
  exists subs children,
    dict_get oneof_schema "oneOf" = Some (PList subs)
    /\ length children = length subs
    /\ fst (OneOfTraitCode.trait_code (mkExtractor 0 PNone) []
              (root_store oneof_schema))
       = Ok (render_call "jst.JSONOneOf" [PVariable (PList children)] []).
Proof.
  set (h := root_store oneof_schema).
  eassert (Hrun : OneOfTraitCode.trait_code (mkExtractor 0 PNone) [] h
                  = (Ok _, _)) by (vm_compute; reflexivity).
  destruct (composition_children h _ 0 (root_node oneof_schema) PNone []
              OneOfTraitCode.trait_code "oneOf" "jst.JSONOneOf" _
              ltac:(reflexivity) ltac:(simpl; tauto) Hrun)
    as (v & subs & children & Hv & Hsubs & Htext & Hall).
  injection Hv as <-. injection Hsubs as <-.
  eexists _, children. split; [reflexivity|].
  split; [symmetry; eapply Forall2_length, Hall|].
  rewrite Hrun. cbn [fst]. rewrite Htext. reflexivity.
Defined.

Lemma composition_stops_at_failure_witness :
  exists h2,
    AnyOfTraitCode.trait_code (mkExtractor 0 PNone) []
      (root_store anyof_schema)
    = (Raise (NotImplementedError "Anonymous Objects"), h2).
Proof.
  set (h := root_store anyof_schema).
  eassert (Hdone :
             mapM (fun s => child_code (fun item => PVariable (PStr item))
                              s 0)
               [PDict [("type", PStr "string")]] h = (Ok _, _))
    by (vm_compute; reflexivity).
  eassert (Hsub :
             child_code (fun item => PVariable (PStr item))
               (PDict [("type", PStr "object")]) 0 _
             = (Raise (NotImplementedError "Anonymous Objects"), _)).
  2:{ eexists.
      exact (composition_stops_at_failure h _ _ 0 (root_node anyof_schema)
               PNone [] AnyOfTraitCode.trait_code "anyOf" "jst.JSONAnyOf"
               [PDict [("type", PStr "string")]]
               [PDict [("type", PStr "integer")]]
               (PDict [("type", PStr "object")]) _ _
               ltac:(reflexivity) ltac:(simpl; tauto) ltac:(reflexivity)
               Hdone Hsub). }
  vm_compute. reflexivity.
Defined.

Lemma composition_of_nothing_witness :
  AllOfTraitCode.trait_code (mkExtractor 0 PNone) []
    (root_store empty_allof_schema)
  = (Ok (render_call "jst.JSONAllOf" [PVariable (PList [])] []),
     root_store empty_allof_schema).
Proof.
  apply (composition_of_nothing (root_store empty_allof_schema) 0
           (root_node empty_allof_schema) PNone []
           AllOfTraitCode.trait_code "allOf" "jst.JSONAllOf"
           ltac:(reflexivity) ltac:(simpl; tauto) ltac:(reflexivity)).
Defined.

Lemma not_trait_code_outcome_witness :
  exists h2,
    NotTraitCode.trait_code (mkExtractor 0 PNone) [] (root_store not_schema)
    = (Ok (render_call "jst.JSONNot"
             [PVariable (PStr "jst.JSONString()")] []), h2).
Proof.
  set (h := root_store not_schema).
  set (sub := PDict [("type", PStr "string")]).
  assert (Hchild : make_child 0 sub h = (Ok 1, snd (make_child 0 sub h)))
    by (vm_compute; reflexivity).
  assert (Hcode : trait_code 1 (snd (make_child 0 sub h))
                  = (Ok "jst.JSONString()",
                     snd (trait_code 1 (snd (make_child 0 sub h)))))
    by (vm_compute; reflexivity).
  pose proof (not_trait_code_outcome h 0 (root_node not_schema) PNone sub []
                ltac:(reflexivity) ltac:(reflexivity)) as H.
  cbv zeta in H. destruct H as (_ & Hok).
  destruct (Hok 1 _ Hchild) as (_ & Hdone).
  eexists. exact (Hdone _ _ Hcode).
Defined.

Lemma simple_reads_only_numeric_keys_witness :
  fst (SimpleTraitCode.trait_code (mkExtractor 0 (PStr "integer")) []
         (root_store integer_schema))
  = fst (SimpleTraitCode.trait_code (mkExtractor 0 (PStr "integer")) []
           (root_store titled_integer_schema)).
Proof.
  apply (simple_reads_only_numeric_keys (root_store integer_schema)
           (root_store titled_integer_schema) 0 0
           (root_node integer_schema) (root_node titled_integer_schema)
           (PStr "integer") [] ltac:(reflexivity) ltac:(reflexivity)).
  intros key Hkey. simpl in Hkey.
  destruct Hkey as [<-|[<-|[<-|[<-|[<-|[]]]]]]; reflexivity.
Defined.

End MoreSamples.
